(** * rag-basic: the embedding cache and top-k retrieval of [VectorStore],
      and the [RAGChat.ask] pipeline built on it.

    Shallow embedding of [src/vector_store.py] and [src/rag_pipeline.py].

    - A chunk is a Python [str]; a tensor of embeddings is the list of its
      rows; similarity scores are rationals (the order of the finite floats).
    - The cache directory [self.cache_dir] is a finite map from the path of a
      cache file to its content.  [__init__] creates the directory and
      [clear] recreates it, so it exists whenever a method runs; file names
      handed to the store are directory entries as [os.listdir] yields them.
    - Python exceptions are values of [exn]; a method is a function from the
      store to a result and the store it leaves behind (an exception does not
      undo the writes made before it).
    - The libraries the code calls (sentence-transformers, torch, pickle, the
      PDF loader and the OpenRouter client) are the fields of the class
      [Libs]; the part of their contract that a proof relies on is a
      hypothesis of the theorem.
    - [print] writes to stdout only and is left out. *)

From Stdlib Require Import QArith Ascii String.
From stdpp Require Import gmap strings list sorting.

Local Open Scope Z_scope.

(** ** Python strings and [os.path] *)

Module Py.

(** [str.lower] on the ASCII letters. *)
Definition lower_ascii (c : ascii) : ascii :=
  let n := nat_of_ascii c in
  if ((65 <=? n) && (n <=? 90))%nat then ascii_of_nat (n + 32) else c.

Fixpoint lower (s : string) : string :=
  match s with
  | EmptyString => EmptyString
  | String c s' => String (lower_ascii c) (lower s')
  end.

(** [s[i:]] for [0 <= i]. *)
Fixpoint drop_str (i : nat) (s : string) : string :=
  match i, s with
  | O, _ => s
  | S _, EmptyString => EmptyString
  | S i', String _ s' => drop_str i' s'
  end.

(** [s[:i]] for [0 <= i]. *)
Fixpoint take_str (i : nat) (s : string) : string :=
  match i, s with
  | O, _ => EmptyString
  | S _, EmptyString => EmptyString
  | S i', String c s' => String c (take_str i' s')
  end.

Definition startswith (s p : string) : bool :=
  String.eqb (take_str (String.length p) s) p.

Definition endswith (s p : string) : bool :=
  (String.length p <=? String.length s)%nat
  && String.eqb (drop_str (String.length s - String.length p) s) p.

(** [s.rfind(c)] for a one-character [c]: the last index, or [-1]. *)
Fixpoint rfind_from (c : ascii) (s : string) (i : Z) (last : Z) : Z :=
  match s with
  | EmptyString => last
  | String d s' => rfind_from c s' (i + 1) (if Ascii.eqb d c then i else last)
  end.

Definition rfind (c : ascii) (s : string) : Z := rfind_from c s 0 (-1).

(** Whether some character of [s] differs from [c]. *)
Fixpoint has_other (c : ascii) (s : string) : bool :=
  match s with
  | EmptyString => false
  | String d s' => negb (Ascii.eqb d c) || has_other c s'
  end.

(** [os.path.splitext] on POSIX ([genericpath._splitext] with [sep = "/"],
    no [altsep], [extsep = "."]): the extension starts at the last dot of
    the last path component, unless that component has only dots before
    it. *)
Definition splitext (p : string) : string * string :=
  let sepIndex := rfind "/" p in
  let dotIndex := rfind "." p in
  if (sepIndex <? dotIndex)
     && has_other "."
          (take_str (Z.to_nat (dotIndex - (sepIndex + 1)))
                    (drop_str (Z.to_nat (sepIndex + 1)) p))
  then (take_str (Z.to_nat dotIndex) p, drop_str (Z.to_nat dotIndex) p)
  else (p, EmptyString).

(** [os.path.join(a, b)] on POSIX. *)
Definition path_join (a b : string) : string :=
  if startswith b "/" then b
  else if String.eqb a "" || endswith a "/" then a +:+ b
  else a +:+ "/" +:+ b.

(** [sep.join(l)]. *)
Fixpoint join (sep : string) (l : list string) : string :=
  match l with
  | [] => ""
  | [x] => x
  | x :: l' => x +:+ sep +:+ join sep l'
  end.

(** Whether the character [c] occurs in [s]. *)
Fixpoint contains (c : ascii) (s : string) : bool :=
  match s with
  | EmptyString => false
  | String d s' => Ascii.eqb d c || contains c s'
  end.

(** The two-character separator ["\n\n"]. *)
Definition blank_line : string := String "010" (String "010" EmptyString).

End Py.

(** ** Exceptions and results *)

(** What [pickle.load] raises on bytes that are not the pickle of an entry:
    [EOFError] on an empty or truncated file, [UnpicklingError] or another
    class on other contents.  A pickle made to raise [FileNotFoundError]
    while it loads is left out. *)
Inductive pickle_exn : Type :=
| EOFError (msg : string)
| UnpicklingError (msg : string)
| OtherLoadError (cls msg : string).

Inductive exn : Type :=
| FileNotFoundError (msg : string)
| ValueError (msg : string)
| RuntimeError (msg : string)
| IndexError (msg : string)
| PickleError (e : pickle_exn)
| RequestError (msg : string).

Inductive result (A : Type) : Type :=
| Ok (a : A)
| Raise (e : exn).

Arguments Ok {A} a.
Arguments Raise {A} e.

Definition is_ok {A} (r : result A) : bool :=
  match r with Ok _ => true | Raise _ => false end.

(** ** The libraries the code calls *)

(** A tensor of embeddings is the list of its rows; a cache entry is the
    tuple [(chunks, embeddings)] that [create] pickles. *)
Definition entry (vec : Type) : Type := (list string * list vec)%type.

Class Libs : Type := {
  (** a row of an embedding tensor, and the bytes of a pickle file *)
  vec : Type;
  blob : Type;
  (** [SentenceTransformer("all-MiniLM-L6-v2").encode] on one text; on a
      list of texts it stacks the rows of the texts *)
  encode : string -> vec;
  (** [util.cos_sim] between two rows *)
  cos_sim : vec -> vec -> Q;
  (** the indices [Tensor.topk(k)] returns for [k] in range *)
  topk_indices : list Q -> nat -> list nat;
  (** what torch raises for an integer argument that does not fit 64 bits
      (the class and the text depend on the version of torch) *)
  unpack_overflow : exn;
  (** [pickle.dump] and [pickle.load]; on bytes that are not the pickle of
      an entry [pickle.load] raises [pickle_error] *)
  pickle_dumps : entry vec -> blob;
  pickle_loads : blob -> option (entry vec);
  pickle_error : blob -> pickle_exn;
  (** [os.listdir] *)
  listdir : string -> result (list string);
  (** [src.pdf_loader.load_pdf] and [chunk_text_simple] *)
  load_pdf : string -> string;
  chunk_text_simple : string -> list string;
  (** [src.openrouter_api.query_openrouter] *)
  query_openrouter : string -> string -> result string
}.

(** [scores[i]] *)
Definition score_at (scores : list Q) (i : nat) : Q := nth i scores 0%Q.

(** Scores from most to least similar. *)
Definition descending (l : list Q) : Prop :=
  StronglySorted (fun x y => (y <= x)%Q) l.

(** What torch documents of [topk(k)] with [largest=True, sorted=True]:
    [k] distinct positions of the input, their scores in descending order,
    none smaller than a score left out.  The order among equal scores is
    left open. *)
Record is_topk (scores : list Q) (k : nat) (idx : list nat) : Prop := {
  topk_length : length idx = k;
  topk_nodup : NoDup idx;
  topk_range : forall i, i ∈ idx -> (i < length scores)%nat;
  topk_sorted : descending (score_at scores <$> idx);
  topk_dominates : forall i j,
    i ∈ idx -> (j < length scores)%nat -> j ∉ idx ->
    (score_at scores j <= score_at scores i)%Q
}.

(** The contracts of torch and pickle that the proofs rely on. *)
Definition topk_contract (L : Libs) : Prop :=
  forall scores k, (k <= length scores)%nat ->
    is_topk scores k (topk_indices scores k).

Definition pickle_contract (L : Libs) : Prop :=
  forall e, pickle_loads (pickle_dumps e) = Some e.

(** ** The store and its monad *)

Section Store.
Context {L : Libs}.

(** The files of [self.cache_dir] by path, and how many times
    [self.model.encode] has been called. *)
Record store : Type := {
  files : gmap string blob;
  encode_calls : nat
}.

Definition M (A : Type) : Type := store -> result A * store.

Definition ret {A} (a : A) : M A := fun st => (Ok a, st).

Definition bind {A B} (c : M A) (k : A -> M B) : M B :=
  fun st =>
    match c st with
    | (Ok a, st') => k a st'
    | (Raise e, st') => (Raise e, st')
    end.

Definition raise {A} (e : exn) : M A := fun st => (Raise e, st).

Definition lift {A} (r : result A) : M A := fun st => (r, st).

Definition run {A} (c : M A) (st : store) : result A * store := c st.

(** [try: body  except FileNotFoundError: handler] *)
Definition try_except_FileNotFoundError {A} (body handler : M A) : M A :=
  fun st =>
    match body st with
    | (Raise (FileNotFoundError _), st') => handler st'
    | r => r
    end.

(** [for x in l: acc = body(acc, x)] *)
Fixpoint for_each {A B} (l : list A) (acc : B) (body : B -> A -> M B) : M B :=
  match l with
  | [] => ret acc
  | x :: l' => bind (body acc x) (fun acc' => for_each l' acc' body)
  end.

(** [[f(x) for x in l]] *)
Fixpoint comprehension {A B} (f : A -> M B) (l : list A) : M (list B) :=
  match l with
  | [] => ret []
  | x :: l' =>
      bind (f x) (fun y => bind (comprehension f l') (fun ys => ret (y :: ys)))
  end.

End Store.

Declare Scope py_scope.
Delimit Scope py_scope with py.
Notation "x <- c ;; k" := (bind c (fun x => k))
  (at level 100, c at next level, right associativity) : py_scope.
Notation "c ;;; k" := (bind c (fun _ => k))
  (at level 100, right associativity) : py_scope.

Local Open Scope py_scope.

(** ** [class VectorStore] *)

Section VectorStore.
Context {L : Libs}.

(** [self.cache_dir] *)
Variable cache_dir : string.

(** The store after one call of the model. *)
Definition bump (st : store) : store :=
  {| files := files st; encode_calls := S (encode_calls st) |}.

(** One call of [self.model.encode]: on a list of texts, on one text. *)
Definition count_encode : M unit := fun st => (Ok tt, bump st).

Definition model_encode_batch (texts : list string) : M (list vec) :=
  count_encode ;;; ret (encode <$> texts).

Definition model_encode (text : string) : M vec :=
  count_encode ;;; ret (encode text).

(** [os.path.exists(path)] for a file of the cache directory *)
Definition os_path_exists (path : string) : M bool :=
  fun st => (Ok (bool_decide (is_Some (files st !! path))), st).

(** [with open(path, "wb") as f: pickle.dump(obj, f)] *)
Definition pickle_dump (obj : entry vec) (path : string) : M unit :=
  fun st =>
    (Ok tt, {| files := <[path := pickle_dumps obj]> (files st);
               encode_calls := encode_calls st |}).

(** [with open(path, "rb") as f: return pickle.load(f)] *)
Definition pickle_load (path : string) : M (entry vec) :=
  fun st =>
    match files st !! path with
    | Some b =>
        match pickle_loads b with
        | Some obj => (Ok obj, st)
        | None => (Raise (PickleError (pickle_error b)), st)
        end
    | None => (Raise (FileNotFoundError path), st)
    end.

Definition get_cache_path (pdf_name : string) : string :=
  let base := fst (Py.splitext pdf_name) in
  Py.path_join cache_dir (base +:+ ".pkl").

(** [shutil.rmtree(self.cache_dir)] then [os.makedirs(self.cache_dir)]:
    the directory exists, so it is removed with all its files and created
    again, empty. *)
Definition clear : M unit :=
  fun st => (Ok tt, {| files := ∅; encode_calls := encode_calls st |}).

(** The store after [clear]. *)
Definition cleared (st : store) : store :=
  {| files := ∅; encode_calls := encode_calls st |}.

Definition create (pdf_name : string) (chunks : list string) : M unit :=
  embeddings <- model_encode_batch chunks ;;
  let cache_file := get_cache_path pdf_name in
  pickle_dump (chunks, embeddings) cache_file.

(** The entry [create] writes for [chunks]. *)
Definition fresh_entry (chunks : list string) : entry vec :=
  (chunks, encode <$> chunks).

(** The store after [create pdf_name chunks]. *)
Definition created (pdf_name : string) (chunks : list string) (st : store) : store :=
  {| files := <[get_cache_path pdf_name := pickle_dumps (fresh_entry chunks)]> (files st);
     encode_calls := S (encode_calls st) |}.

Definition load (pdf_name : string) : M (entry vec) :=
  let cache_file := get_cache_path pdf_name in
  found <- os_path_exists cache_file ;;
  if negb found
  then raise (FileNotFoundError ("No cache found for " +:+ pdf_name))
  else pickle_load cache_file.

Definition fetch (pdf_name : string) (chunks : list string) : M (entry vec) :=
  try_except_FileNotFoundError
    (load pdf_name)
    (create pdf_name chunks ;;; load pdf_name).

(** The body of the loop of [fetch_all], on the two accumulators. *)
Definition fetch_all_step (pdf_folder : string)
    (acc : list string * list (list vec)) (file : string)
    : M (list string * list (list vec)) :=
  let '(all_chunks, all_embeddings) := acc in
  if Py.endswith (Py.lower file) ".pdf" then
    let path := Py.path_join pdf_folder file in
    let raw_text := load_pdf path in
    let chunks := chunk_text_simple raw_text in
    fetched <- fetch file chunks ;;
    let '(chunks, embeddings) := fetched in
    ret (all_chunks ++ chunks, all_embeddings ++ [embeddings])
  else ret (all_chunks, all_embeddings).

(** [torch.cat(tensors, dim=0)]: the rows of the blocks, in order. *)
Definition cat (tensors : list (list vec)) : list vec := concat tensors.

Definition fetch_all (pdf_folder : string) : M (entry vec) :=
  names <- lift (listdir pdf_folder) ;;
  acc <- for_each names ([], []) (fetch_all_step pdf_folder) ;;
  let '(all_chunks, all_embeddings) := acc in
  if bool_decide (all_chunks = [])
  then raise (ValueError "No valid PDFs found in the specified folder.")
  else ret (all_chunks, cat all_embeddings).

(** The documents [fetch_all] takes from a listing: the names with a
    [.pdf] suffix in any case, in the order of the listing. *)
Definition eligible (names : list string) : list string :=
  List.filter (fun file => Py.endswith (Py.lower file) ".pdf") names.

(** The cache file of [pdf_name] exists and unpickles to [e]. *)
Definition cached (st : store) (pdf_name : string) (e : entry vec) : Prop :=
  exists b, files st !! get_cache_path pdf_name = Some b /\ pickle_loads b = Some e.

(** Every file of the cache directory unpickles. *)
Definition cache_readable (st : store) : Prop :=
  forall p b, files st !! p = Some b -> is_Some (pickle_loads b).

(** Every entry of the cache directory satisfies [P]. *)
Definition entries_sat (P : entry vec -> Prop) (st : store) : Prop :=
  forall p b e, files st !! p = Some b -> pickle_loads b = Some e -> P e.

(** The invariant of a document cache entry: one row per chunk. *)
Definition entry_aligned (e : entry vec) : Prop :=
  length (fst e) = length (snd e).

Definition empty_corpus : exn :=
  ValueError "No valid PDFs found in the specified folder.".

(** Whether [k] is a 64-bit integer. *)
Definition fits_int64 (k : Z) : bool := (- 2 ^ 63 <=? k) && (k <? 2 ^ 63).

(** [scores.topk(k)] on a one-dimensional tensor: torch unpacks [k] as a
    64-bit integer, which fails on a [k] that does not fit, and rejects a
    [k] that is negative or larger than the tensor.  A tensor has fewer
    than [2 ^ 63] elements, so a [k] in range fits. *)
Definition topk (scores : list Q) (k : Z) : result (list Q * list nat) :=
  if (k <? 0) || (Z.of_nat (length scores) <? k)
  then
    if fits_int64 k
    then Raise (RuntimeError "selected index k out of range")
    else Raise unpack_overflow
  else
    let indices := topk_indices scores (Z.to_nat k) in
    Ok (score_at scores <$> indices, indices).

(** [chunks[i]] *)
Definition getitem (chunks : list string) (i : nat) : M string :=
  match chunks !! i with
  | Some c => ret c
  | None => raise (IndexError "list index out of range")
  end.

Definition retrieve_top_k (chunks : list string) (embeddings : list vec)
    (query : string) (k : Z) : M (list string) :=
  query_embedding <- model_encode query ;;
  let scores := cos_sim query_embedding <$> embeddings in
  top <- lift (topk scores k) ;;
  let top_indices := snd top in
  comprehension (getitem chunks) top_indices.

(** The scores of the rows against the query. *)
Definition scores_of (embeddings : list vec) (query : string) : list Q :=
  cos_sim (encode query) <$> embeddings.

(** [result] holds the chunks at the positions [idx], in that order. *)
Definition chunks_at (chunks : list string) (idx : list nat)
    (result : list string) : Prop :=
  Forall2 (fun i c => chunks !! i = Some c) idx result.

(** The chunks that the loops of [fetch_all] and [reset] cut from the
    document [file] of [pdf_folder]. *)
Definition chunks_of (pdf_folder file : string) : list string :=
  chunk_text_simple (load_pdf (Py.path_join pdf_folder file)).

(** The body of the loop of [reset]. *)
Definition reset_step (pdf_folder : string) (_ : unit) (file : string) : M unit :=
  if Py.endswith (Py.lower file) ".pdf" then
    let path := Py.path_join pdf_folder file in
    let raw_text := load_pdf path in
    let chunks := chunk_text_simple raw_text in
    create file chunks
  else ret tt.

Definition reset (pdf_folder : string) : M unit :=
  clear ;;;
  names <- lift (listdir pdf_folder) ;;
  for_each names tt (reset_step pdf_folder).

End VectorStore.

(** ** [class RAGChat] *)

Section RAGChat.
Context {L : Libs}.

Record RAGChat : Type := {
  pdf_folder : string;
  vstore_cache_dir : string;
  chunks : list string;
  embeddings : list vec
}.

(** [RAGChat(pdf_folder)]: the store is [VectorStore()], whose cache
    directory is ["data/cache"]. *)
Definition RAGChat_init (folder : string) : M RAGChat :=
  pool <- fetch_all "data/cache" folder ;;
  ret {| pdf_folder := folder; vstore_cache_dir := "data/cache";
         chunks := fst pool; embeddings := snd pool |}.

Definition ask (self : RAGChat) (question : string) (top_k : Z) : M string :=
  top_chunks <- retrieve_top_k (chunks self) (embeddings self) question top_k ;;
  let context := Py.join Py.blank_line top_chunks in
  lift (query_openrouter question context).

(** [ask(question)] with the default [top_k=3]. *)
Definition ask_default (self : RAGChat) (question : string) : M string :=
  ask self question 3.

End RAGChat.

(** ** [reset_vector_store.py] *)

(** [main()]: [VectorStore()] has the cache directory ["data/cache"]. *)
Definition main {L : Libs} : M unit := reset "data/cache" "data/pdf".

(** ** A reference implementation of the libraries

    [topk] by sorting the positions on their scores, pickle as the identity
    on entries, two-dimensional integer embeddings.  It shows that the
    contracts above can be met, and the examples run on it. *)

Module Ref.

Definition Qle_decision (x y : Q) : Decision (x <= y)%Q :=
  match Qlt_le_dec y x with
  | left H => right (Qlt_not_le _ _ H)
  | right H => left H
  end.

(** Position [i] goes before position [j] when its score is not smaller. *)
Definition before (scores : list Q) (i j : nat) : Prop :=
  (score_at scores j <= score_at scores i)%Q.

Definition before_decision (scores : list Q) (i j : nat)
  : Decision (before scores i j) := Qle_decision _ _.

Definition sorted_positions (scores : list Q) : list nat :=
  @merge_sort nat (before scores) (before_decision scores)
    (seq 0 (length scores)).

Definition topk_by_sort (scores : list Q) (k : nat) : list nat :=
  take k (sorted_positions scores).

(** Embeddings in the plane with integer coordinates. *)
Definition row : Type := (Z * Z)%type.

Definition dot (a b : row) : Z := fst a * fst b + snd a * snd b.

(** The cosine of the angle, squared and with its sign, which orders the
    rows as the cosine does; [0] when a vector has norm zero. *)
Definition similarity (a b : row) : Q :=
  if (dot a a =? 0) || (dot b b =? 0) then 0%Q
  else Qmake (Z.sgn (dot a b) * (dot a b * dot a b))
             (Z.to_pos (dot a a * dot b b)).

(** A text by its numbers of letters [a] and [e]. *)
Fixpoint count_char (c : ascii) (s : string) : Z :=
  match s with
  | EmptyString => 0
  | String d s' => (if Ascii.eqb d c then 1 else 0) + count_char c s'
  end.

Definition embed (s : string) : row := (count_char "a" s, count_char "e" s).

Definition ls (folder : string) : result (list string) :=
  if String.eqb folder "data/pdf" then Ok ["a.pdf"; "notes.txt"; "b.PDF"]
  else if String.eqb folder "data/empty" then Ok ["notes.txt"]
  else Raise (FileNotFoundError folder).

Definition pdf_text (path : string) : string := path.

Definition chunker (raw_text : string) : list string :=
  if String.eqb raw_text "data/pdf/a.pdf"
  then ["alpha fact one"; "alpha fact two"]
  else if String.eqb raw_text "data/pdf/b.PDF" then ["beta fact one"]
  else [].

Definition answer (question context : string) : result string :=
  Ok ("Q: " +:+ question +:+ " C: " +:+ context).

Definition libs : Libs := {|
  vec := row;
  blob := entry row;
  encode := embed;
  cos_sim := similarity;
  topk_indices := topk_by_sort;
  pickle_dumps := fun e => e;
  unpack_overflow := ValueError "Overflow when unpacking long long";
  pickle_loads := fun b => Some b;
  pickle_error := fun _ => EOFError "Ran out of input";
  listdir := ls;
  load_pdf := pdf_text;
  chunk_text_simple := chunker;
  query_openrouter := answer
|}.

Definition empty_store : @store libs := {| files := ∅; encode_calls := 0 |}.

(** A store whose cache holds an older cut of [a.pdf]. *)
Definition stale_store : @store libs :=
  snd (run (create "data/cache" "a.pdf" ["old alpha"]) empty_store).

(** The pool of the folder [data/pdf]. *)
Definition pool_chunks : list string :=
  ["alpha fact one"; "alpha fact two"; "beta fact one"].

Definition pool_rows : list row := embed <$> pool_chunks.

Definition chat : @RAGChat libs :=
  @Build_RAGChat libs "data/pdf" "data/cache" pool_chunks pool_rows.

(** The same libraries with pickle files as optional entries: [None] is
    a file that is not a pickle. *)
Definition raw_libs : Libs := {|
  vec := row;
  blob := option (entry row);
  encode := embed;
  cos_sim := similarity;
  topk_indices := topk_by_sort;
  pickle_dumps := fun e => Some e;
  unpack_overflow := ValueError "Overflow when unpacking long long";
  pickle_loads := fun b => b;
  pickle_error := fun _ => EOFError "Ran out of input";
  listdir := ls;
  load_pdf := pdf_text;
  chunk_text_simple := chunker;
  query_openrouter := answer
|}.

(** A store whose cache file of [a.pdf] is not a pickle. *)
Definition corrupt_store : @store raw_libs :=
  {| files := {[ "data/cache/a.pkl" := None ]}; encode_calls := 0 |}.

(** A store whose cache file of [b.PDF] is empty. *)
Definition truncated_store : @store raw_libs :=
  {| files := {[ "data/cache/b.pkl" := None ]}; encode_calls := 0 |}.

(** A pool of one chunk. *)
Definition small_chat : @RAGChat libs :=
  @Build_RAGChat libs "data/pdf" "data/cache" ["only"] [(1, 0)].

End Ref.

(** * Properties *)

(** ** Python strings, on examples *)

Example splitext_pdf : Py.splitext "report.v2.pdf" = ("report.v2", ".pdf").
Proof. reflexivity. Qed.

Example splitext_dotfile : Py.splitext ".bashrc" = (".bashrc", "").
Proof. reflexivity. Qed.

Example endswith_pdf : Py.endswith (Py.lower "Notes.PDF") ".pdf" = true.
Proof. reflexivity. Qed.

Example path_join_rel : Py.path_join "data/pdf" "a.pdf" = "data/pdf/a.pdf".
Proof. reflexivity. Qed.

(** ** The monad *)

Section MonadFacts.
Context {L : Libs}.

Lemma bind_run {A B} (c : M A) (k : A -> M B) st :
  run (bind c k) st
  = match run c st with
    | (Ok a, st') => run (k a) st'
    | (Raise e, st') => (Raise e, st')
    end.
Proof. reflexivity. Qed.

End MonadFacts.

(** ** The reference [topk] meets torch's contract *)

Module RefFacts.

#[local] Instance before_trans scores : Transitive (Ref.before scores).
Proof. intros i j k Hij Hjk. unfold Ref.before in *. by eapply Qle_trans. Qed.

#[local] Instance before_total scores : Total (Ref.before scores).
Proof.
  intros i j. unfold Ref.before.
  destruct (Qlt_le_dec (score_at scores i) (score_at scores j)) as [H|H].
  - right. by apply Qlt_le_weak.
  - by left.
Qed.

Lemma sorted_positions_perm scores :
  Ref.sorted_positions scores ≡ₚ seq 0 (length scores).
Proof. apply merge_sort_Permutation. Qed.

Lemma sorted_positions_sorted scores :
  StronglySorted (Ref.before scores) (Ref.sorted_positions scores).
Proof.
  unfold Ref.sorted_positions.
  apply (@StronglySorted_merge_sort nat (Ref.before scores)
           (Ref.before_decision scores) _ _).
Qed.

Lemma topk_by_sort_is_topk scores k :
  (k <= length scores)%nat -> is_topk scores k (Ref.topk_by_sort scores k).
Proof.
  intros Hk. unfold Ref.topk_by_sort.
  pose proof (sorted_positions_perm scores) as Hperm.
  pose proof (sorted_positions_sorted scores) as Hsort.
  set (l := Ref.sorted_positions scores) in *.
  assert (Hlen : length l = length scores).
  { by rewrite Hperm, length_seq. }
  assert (Hin : forall i, i ∈ l <-> (i < length scores)%nat).
  { intros i. rewrite Hperm, elem_of_seq. lia. }
  rewrite <- (take_drop k l) in Hsort.
  apply StronglySorted_app in Hsort as (Hcross & Hl & _).
  split.
  - apply length_take_le. lia.
  - eapply sublist_NoDup; [|apply sublist_take].
    rewrite Hperm. apply NoDup_seq.
  - intros i Hi. apply Hin. by eapply subseteq_take.
  - unfold descending.
    eapply StronglySorted_fmap; [|exact Hl]. by intros x y Hxy.
  - intros i j Hi Hj Hnj.
    apply (Hcross i j Hi).
    apply Hin in Hj. rewrite <- (take_drop k l) in Hj.
    apply elem_of_app in Hj as [Hj|Hj]; [by destruct Hnj | done].
Qed.

Lemma topk_contract_ref : topk_contract Ref.libs.
Proof. intros scores k Hk. by apply topk_by_sort_is_topk. Qed.

Lemma pickle_contract_ref : pickle_contract Ref.libs.
Proof. by intros e. Qed.

End RefFacts.

(** ** The cache: [create], [load], [fetch], [clear] *)

Section CacheFacts.
Context {L : Libs}.
Variable cache_dir : string.

Local Abbreviation path := (get_cache_path cache_dir).

Lemma model_encode_batch_run texts st :
  run (model_encode_batch texts) st
  = (Ok (encode <$> texts),
     {| files := files st; encode_calls := S (encode_calls st) |}).
Proof. reflexivity. Qed.

Lemma create_run pdf_name chunks st :
  run (create cache_dir pdf_name chunks) st = (Ok tt, created cache_dir pdf_name chunks st).
Proof. reflexivity. Qed.

Lemma load_miss pdf_name st :
  files st !! path pdf_name = None ->
  run (load cache_dir pdf_name) st
  = (Raise (FileNotFoundError ("No cache found for " +:+ pdf_name)), st).
Proof.
  intros Hnone. unfold run, load, bind, os_path_exists.
  rewrite Hnone, bool_decide_eq_false_2; [done|]. by intros [? ?].
Qed.

Lemma load_hit pdf_name st b :
  files st !! path pdf_name = Some b ->
  run (load cache_dir pdf_name) st
  = (match pickle_loads b with
     | Some obj => Ok obj
     | None => Raise (PickleError (pickle_error b))
     end, st).
Proof.
  intros Hsome. unfold run, load, bind, os_path_exists, pickle_load.
  rewrite Hsome, bool_decide_eq_true_2 by eauto. simpl.
  rewrite Hsome. by destruct (pickle_loads b).
Qed.

Lemma fetch_hit pdf_name chunks st b :
  files st !! path pdf_name = Some b ->
  run (fetch cache_dir pdf_name chunks) st = run (load cache_dir pdf_name) st.
Proof.
  intros Hsome. unfold run at 1. unfold fetch, try_except_FileNotFoundError.
  change (load cache_dir pdf_name st) with (run (load cache_dir pdf_name) st).
  rewrite (load_hit _ _ _ Hsome). by destruct (pickle_loads b).
Qed.

Lemma fetch_miss pdf_name chunks st :
  files st !! path pdf_name = None ->
  run (fetch cache_dir pdf_name chunks) st
  = run (load cache_dir pdf_name) (created cache_dir pdf_name chunks st).
Proof.
  intros Hnone. unfold run at 1. unfold fetch, try_except_FileNotFoundError.
  change (load cache_dir pdf_name st) with (run (load cache_dir pdf_name) st).
  by rewrite (load_miss _ _ Hnone).
Qed.

Lemma created_lookup pdf_name chunks st :
  files (created cache_dir pdf_name chunks st) !! path pdf_name
  = Some (pickle_dumps (fresh_entry chunks)).
Proof. apply lookup_insert_eq. Qed.

Hypothesis pickle_ok : pickle_contract L.

Lemma load_created pdf_name chunks st :
  run (load cache_dir pdf_name) (created cache_dir pdf_name chunks st)
  = (Ok (fresh_entry chunks), created cache_dir pdf_name chunks st).
Proof.
  rewrite (load_hit _ _ _ (created_lookup pdf_name chunks st)).
  by rewrite pickle_ok.
Qed.

(** C3.  Round trip: after [create(pdf_name, chunks)], which encodes the
    chunks and pickles the pair, [load(pdf_name)] returns exactly the
    chunks, in their order, with the rows the model computed for them, in
    the same order. *)
Theorem create_load_roundtrip pdf_name chunks st :
  exists embeddings st',
    fst (run (model_encode_batch chunks) st) = Ok embeddings
    /\ run (create cache_dir pdf_name chunks) st = (Ok tt, st')
    /\ run (load cache_dir pdf_name) st' = (Ok (chunks, embeddings), st')
    /\ run (create cache_dir pdf_name chunks ;;; load cache_dir pdf_name) st
       = (Ok (chunks, embeddings), st').
Proof.
  exists (encode <$> chunks), (created cache_dir pdf_name chunks st).
  split; [done|]. split; [apply create_run|].
  split; [apply load_created|].
  unfold run at 1. unfold bind.
  change (create cache_dir pdf_name chunks st)
    with (run (create cache_dir pdf_name chunks) st).
  rewrite create_run. apply load_created.
Qed.

(** C2.  Two calls of [fetch] with the same name and the same fallback
    chunks call the embedding model at most once, and the second call
    leaves the store as the first left it; on a cache miss the first
    call encodes, saves and returns what it loads back, the second is a
    hit that returns the persisted entry, and the model has been called
    exactly once. *)
Theorem fetch_twice_encodes_once pdf_name chunks st :
  let r1 := fst (run (fetch cache_dir pdf_name chunks) st) in
  let st1 := snd (run (fetch cache_dir pdf_name chunks) st) in
  let r2 := fst (run (fetch cache_dir pdf_name chunks) st1) in
  let st2 := snd (run (fetch cache_dir pdf_name chunks) st1) in
  (encode_calls st2 <= encode_calls st + 1)%nat
  /\ st2 = st1
  /\ r2 = r1
  /\ (files st !! path pdf_name = None ->
      r1 = Ok (chunks, encode <$> chunks)
      /\ files st1 !! path pdf_name
         = Some (pickle_dumps (chunks, encode <$> chunks))
      /\ encode_calls st1 = (encode_calls st + 1)%nat
      /\ r2 = Ok (chunks, encode <$> chunks)
      /\ encode_calls st2 = (encode_calls st + 1)%nat).
Proof.
  destruct (files st !! path pdf_name) as [b|] eqn:Hlk.
  - rewrite (fetch_hit _ chunks _ _ Hlk), (load_hit _ _ _ Hlk). simpl.
    rewrite (fetch_hit _ chunks _ _ Hlk), (load_hit _ _ _ Hlk). simpl.
    repeat split; try done; lia.
  - rewrite (fetch_miss _ chunks _ Hlk), load_created. simpl.
    rewrite (fetch_hit _ chunks _ _ (created_lookup _ _ _)), load_created.
    simpl. repeat split; try done; try lia. apply lookup_insert_eq.
Qed.

End CacheFacts.

Section ClearFacts.
Context {L : Libs}.
Variable cache_dir : string.

Local Abbreviation path := (get_cache_path cache_dir).

(** C6.  After [clear] the cache directory is empty: [load] of any name,
    cached before or not, raises [FileNotFoundError] and returns nothing
    of what was stored, and a new [create] succeeds and leaves its file
    in the directory. *)
Theorem clear_then_load_misses pdf_name st :
  exists st',
    run (clear (L:=L)) st = (Ok tt, st')
    /\ files st' = ∅
    /\ run (load cache_dir pdf_name) st'
       = (Raise (FileNotFoundError ("No cache found for " +:+ pdf_name)), st')
    /\ run (clear ;;; load cache_dir pdf_name) st
       = (Raise (FileNotFoundError ("No cache found for " +:+ pdf_name)), st')
    /\ forall name chunks,
         exists st'',
           run (create cache_dir name chunks) st' = (Ok tt, st'')
           /\ files st'' !! path name
              = Some (pickle_dumps (chunks, encode <$> chunks)).
Proof.
  exists {| files := ∅; encode_calls := encode_calls st |}.
  assert (Hmiss : forall name,
    run (load cache_dir name) {| files := ∅; encode_calls := encode_calls st |}
    = (Raise (FileNotFoundError ("No cache found for " +:+ name)),
       {| files := ∅; encode_calls := encode_calls st |})).
  { intros name. apply load_miss. apply lookup_empty. }
  repeat split; try done.
  intros name chunks. eexists. split; [apply create_run|].
  apply created_lookup.
Qed.

(** C8.  When the cache file of a name exists, [fetch] does not look at
    the fallback chunks: two calls from the same store with different
    fallbacks give the same result and the same store, it is the cached
    entry that comes back with the store unchanged, and the loop of
    [fetch_all] appends the cached chunks and rows, not the chunks it has
    just cut from the document. *)
Theorem fetch_ignores_fallback pdf_name c1 c2 st b :
  files st !! path pdf_name = Some b ->
  run (fetch cache_dir pdf_name c1) st = run (fetch cache_dir pdf_name c2) st
  /\ forall cached_chunks cached_rows,
       pickle_loads b = Some (cached_chunks, cached_rows) ->
       run (fetch cache_dir pdf_name c1) st = (Ok (cached_chunks, cached_rows), st)
       /\ forall pdf_folder all_chunks all_embeddings,
            Py.endswith (Py.lower pdf_name) ".pdf" = true ->
            run (fetch_all_step cache_dir pdf_folder
                   (all_chunks, all_embeddings) pdf_name) st
            = (Ok (all_chunks ++ cached_chunks,
                   all_embeddings ++ [cached_rows]), st).
Proof.
  intros Hlk. rewrite !(fetch_hit _ _ _ _ _ Hlk). split; [done|].
  intros cc cr Hload. rewrite (load_hit _ _ _ _ Hlk), Hload.
  split; [done|]. intros folder ac ae Hpdf.
  unfold run, fetch_all_step, bind. rewrite Hpdf.
  pose proof (fetch_hit cache_dir pdf_name
    (chunk_text_simple (load_pdf (Py.path_join folder pdf_name))) st b Hlk) as Hf.
  rewrite (load_hit _ _ _ _ Hlk), Hload in Hf. unfold run in Hf.
  by rewrite Hf.
Qed.

End ClearFacts.

(** ** Retrieval: [retrieve_top_k] and [ask] *)

Section RetrievalFacts.
Context {L : Libs}.

Lemma retrieve_top_k_run chunks embeddings query k st :
  run (retrieve_top_k chunks embeddings query k) st
  = match topk (scores_of embeddings query) k with
    | Ok top => run (comprehension (getitem chunks) (snd top)) (bump st)
    | Raise e => (Raise e, bump st)
    end.
Proof.
  unfold run, retrieve_top_k, bind, model_encode, count_encode, lift, ret.
  simpl. fold (scores_of embeddings query).
  by destruct (topk (scores_of embeddings query) k).
Qed.

Lemma comprehension_getitem chunks idx st :
  (forall i, i ∈ idx -> (i < length chunks)%nat) ->
  exists result,
    run (comprehension (getitem chunks) idx) st = (Ok result, st)
    /\ chunks_at chunks idx result.
Proof.
  induction idx as [|i idx IH]; intros Hrange.
  - exists []. split; [done|constructor].
  - destruct IH as (rest & Hrun & Hrest).
    { intros j Hj. apply Hrange. by right. }
    destruct (lookup_lt_is_Some_2 chunks i) as [c Hc].
    { apply Hrange. by left. }
    exists (c :: rest). split; [|by constructor].
    assert (Hget : run (getitem chunks i) st = (Ok c, st)).
    { unfold getitem. by rewrite Hc. }
    change (comprehension (getitem chunks) (i :: idx))
      with (bind (getitem chunks i) (fun y =>
              bind (comprehension (getitem chunks) idx) (fun ys =>
                ret (y :: ys)))).
    by rewrite bind_run, Hget, bind_run, Hrun.
Qed.

Lemma topk_in_range scores k :
  0 <= k <= Z.of_nat (length scores) ->
  topk scores k
  = Ok (score_at scores <$> topk_indices scores (Z.to_nat k),
        topk_indices scores (Z.to_nat k)).
Proof.
  intros Hk. unfold topk.
  destruct (k <? 0) eqn:E1; [lia|].
  destruct (Z.of_nat (length scores) <? k) eqn:E2; [lia|done].
Qed.

Lemma topk_out_of_range scores k :
  Z.of_nat (length scores) < k ->
  topk scores k
  = Raise (if k <? 2 ^ 63 then RuntimeError "selected index k out of range"
           else unpack_overflow).
Proof.
  intros Hk. unfold topk, fits_int64.
  destruct (Z.of_nat (length scores) <? k) eqn:E2; [|lia].
  rewrite orb_true_r.
  destruct (- 2 ^ 63 <=? k) eqn:E3; [|lia].
  by destruct (k <? 2 ^ 63).
Qed.

Lemma topk_negative scores k :
  k < 0 ->
  topk scores k
  = Raise (if - 2 ^ 63 <=? k then RuntimeError "selected index k out of range"
           else unpack_overflow).
Proof.
  intros Hk. unfold topk, fits_int64.
  destruct (k <? 0) eqn:E1; [|lia]. simpl.
  destruct (k <? 2 ^ 63) eqn:E3; [|lia].
  rewrite andb_true_r. by destruct (- 2 ^ 63 <=? k).
Qed.

Lemma length_scores_of embeddings query :
  length (scores_of embeddings query) = length embeddings.
Proof. unfold scores_of. by rewrite length_fmap. Qed.

Lemma chunks_at_nth chunks idx result :
  chunks_at chunks idx result ->
  result = (fun i => nth i chunks ""%string) <$> idx.
Proof.
  induction 1 as [|i c idx result Hc _ IH]; [done|].
  csimpl. rewrite <- IH. f_equal. symmetry. by apply nth_lookup_Some.
Qed.

Lemma fmap_nth_seq (chunks : list string) :
  (fun i => nth i chunks ""%string) <$> seq 0 (length chunks) = chunks.
Proof.
  apply list_eq. intros i. rewrite list_lookup_fmap.
  destruct (chunks !! i) as [c|] eqn:Hc.
  - rewrite (lookup_seq_lt 0 (length chunks) i) by (by eapply lookup_lt_Some).
    simpl. f_equal. by apply nth_lookup_Some.
  - rewrite lookup_seq_ge; [done|]. by apply lookup_ge_None.
Qed.

Lemma full_topk_perm scores idx :
  is_topk scores (length scores) idx -> idx ≡ₚ seq 0 (length scores).
Proof.
  intros [Hlen Hnd Hrange _ _].
  apply submseteq_length_Permutation.
  - apply NoDup_submseteq; [done|].
    intros i Hi. apply elem_of_seq. specialize (Hrange i Hi). lia.
  - rewrite length_seq. lia.
Qed.

Hypothesis topk_ok : topk_contract L.

Lemma retrieve_top_k_in_range chunks embeddings query k st :
  length chunks = length embeddings ->
  0 <= k <= Z.of_nat (length chunks) ->
  exists idx result,
    run (retrieve_top_k chunks embeddings query k) st = (Ok result, bump st)
    /\ length result = Z.to_nat k
    /\ is_topk (scores_of embeddings query) (Z.to_nat k) idx
    /\ chunks_at chunks idx result.
Proof.
  intros Hlen Hk.
  set (scores := scores_of embeddings query).
  assert (Hs : length scores = length chunks).
  { unfold scores. by rewrite length_scores_of. }
  pose proof (topk_ok scores (Z.to_nat k) ltac:(lia)) as Htop.
  destruct (comprehension_getitem chunks (topk_indices scores (Z.to_nat k))
              (bump st)) as (result & Hrun & Hat).
  { intros i Hi. rewrite <- Hs. by apply (topk_range _ _ _ Htop). }
  exists (topk_indices scores (Z.to_nat k)), result.
  rewrite retrieve_top_k_run. fold scores.
  rewrite topk_in_range by lia. simpl.
  split; [done|]. split; [|done].
  rewrite <- (Forall2_length _ _ _ Hat). apply (topk_length _ _ _ Htop).
Qed.

(** C4.  For [k] between [0] and the size of the pool, [retrieve_top_k]
    encodes the query with the model that encoded the corpus (one call),
    scores every row by its cosine similarity to the query vector, and
    returns [k] chunks: those at [k] distinct positions whose scores are
    not below the score of any position left out, from the most to the
    least similar. *)
Theorem retrieve_top_k_selects chunks embeddings query k st :
  length chunks = length embeddings ->
  0 <= k <= Z.of_nat (length chunks) ->
  exists idx result,
    run (retrieve_top_k chunks embeddings query k) st = (Ok result, bump st)
    /\ length result = Z.to_nat k
    /\ is_topk (scores_of embeddings query) (Z.to_nat k) idx
    /\ chunks_at chunks idx result.
Proof. apply retrieve_top_k_in_range. Qed.

(** C9.  With [k = 0], [retrieve_top_k] returns the empty list, whatever
    the pool and the query. *)
Theorem retrieve_top_k_zero chunks embeddings query st :
  run (retrieve_top_k chunks embeddings query 0) st = (Ok [], bump st).
Proof.
  rewrite retrieve_top_k_run, topk_in_range by lia.
  change (Z.to_nat 0) with 0%nat. cbn [snd].
  pose proof (topk_ok (scores_of embeddings query) 0%nat ltac:(lia)) as Htop.
  apply topk_length, nil_length_inv in Htop. by rewrite Htop.
Qed.

(** C1, as the code has it.  [retrieve_top_k] does not clamp [k]: with
    [k] greater than the size of the pool, torch's [topk] raises and no
    chunk is returned; the exception is [RuntimeError] for a [k] that fits
    64 bits and torch's overflow error for a larger one.  The whole pool,
    ordered by similarity from the most to the least similar, comes back
    when [k] equals the size of the pool. *)
Theorem retrieve_top_k_beyond_pool chunks embeddings query k st :
  length chunks = length embeddings ->
  Z.of_nat (length chunks) < k ->
  run (retrieve_top_k chunks embeddings query k) st
  = (Raise (if k <? 2 ^ 63 then RuntimeError "selected index k out of range"
            else unpack_overflow), bump st)
  /\ exists idx result,
       run (retrieve_top_k chunks embeddings query (Z.of_nat (length chunks))) st
       = (Ok result, bump st)
       /\ result ≡ₚ chunks
       /\ is_topk (scores_of embeddings query) (length chunks) idx
       /\ chunks_at chunks idx result.
Proof.
  intros Hlen Hk. split.
  - rewrite retrieve_top_k_run, topk_out_of_range; [done|].
    rewrite length_scores_of. lia.
  - destruct (retrieve_top_k_in_range chunks embeddings query
                (Z.of_nat (length chunks)) st Hlen ltac:(lia))
      as (idx & result & Hrun & _ & Htop & Hat).
    rewrite Nat2Z.id in Htop.
    exists idx, result. split; [done|]. split; [|by split].
    rewrite (chunks_at_nth _ _ _ Hat).
    transitivity ((fun i => nth i chunks ""%string) <$> seq 0 (length chunks));
      [|by rewrite fmap_nth_seq].
    apply fmap_Permutation.
    assert (Hls : length (scores_of embeddings query) = length chunks).
    { by rewrite length_scores_of. }
    rewrite <- Hls in Htop |- *. by apply full_topk_perm.
Qed.

End RetrievalFacts.

(** ** The corpus pool: [fetch_all] *)

Section FetchAllFacts.
Context {L : Libs}.
Variable cache_dir : string.

Local Abbreviation path := (get_cache_path cache_dir).

Lemma cached_mono st st' pdf_name e :
  files st ⊆ files st' -> cached cache_dir st pdf_name e -> cached cache_dir st' pdf_name e.
Proof.
  intros Hsub (b & Hb & He). exists b. split; [|done].
  by eapply lookup_weaken.
Qed.

Lemma fetch_all_step_run folder ac ae file st :
  run (fetch_all_step cache_dir folder (ac, ae) file) st
  = if Py.endswith (Py.lower file) ".pdf" then
      match run (fetch cache_dir file
                   (chunk_text_simple (load_pdf (Py.path_join folder file)))) st with
      | (Ok e, st') => (Ok (ac ++ fst e, ae ++ [snd e]), st')
      | (Raise x, st') => (Raise x, st')
      end
    else (Ok (ac, ae), st).
Proof.
  unfold fetch_all_step. destruct (Py.endswith _ _); [|done].
  rewrite bind_run.
  destruct (run (fetch _ _ _) st) as [[[c e]|x] st']; done.
Qed.

Hypothesis pickle_ok : pickle_contract L.

(** One [fetch]: the directory only grows, stays readable, keeps any
    property of its entries that fresh entries have, and what is returned
    is then the cached entry of the name; [fetch] fails only on a file
    that does not unpickle. *)
Lemma fetch_effect pdf_name chunks st :
  let r := run (fetch cache_dir pdf_name chunks) st in
  files st ⊆ files (snd r)
  /\ (cache_readable st -> cache_readable (snd r))
  /\ (forall P, (forall c, P (fresh_entry c)) ->
                entries_sat P st -> entries_sat P (snd r))
  /\ match fst r with
     | Ok e => cached cache_dir (snd r) pdf_name e
     | Raise _ => ~ cache_readable st
     end.
Proof.
  destruct (files st !! path pdf_name) as [b|] eqn:Hlk; cbv zeta.
  - rewrite (fetch_hit _ _ chunks _ _ Hlk), (load_hit _ _ _ _ Hlk). simpl.
    repeat split; try done.
    destruct (pickle_loads b) as [e|] eqn:He.
    + by exists b.
    + intros Hr. destruct (Hr _ _ Hlk) as [e' He']. congruence.
  - rewrite (fetch_miss _ _ chunks _ Hlk), load_created by done.
    unfold created. simpl.
    split; [by apply insert_subseteq|].
    split; [|split].
    + intros Hr p b Hb. simpl in Hb.
      apply lookup_insert_Some in Hb as [[_ <-]|[_ Hb]].
      * rewrite pickle_ok. eauto.
      * by eapply Hr.
    + intros P Hfresh Hs p b e Hb He. simpl in Hb.
      apply lookup_insert_Some in Hb as [[_ <-]|[_ Hb]].
      * rewrite pickle_ok in He. injection He as <-. apply Hfresh.
      * by eapply Hs.
    + eexists. split; [apply lookup_insert_eq|]. apply pickle_ok.
Qed.

(** The loop of [fetch_all], from any accumulators. *)
Lemma fetch_all_loop folder names :
  forall ac ae st,
    let r := run (for_each names (ac, ae) (fetch_all_step cache_dir folder)) st in
    files st ⊆ files (snd r)
    /\ (cache_readable st -> cache_readable (snd r))
    /\ (forall P, (forall c, P (fresh_entry c)) ->
                  entries_sat P st -> entries_sat P (snd r))
    /\ match fst r with
       | Ok acc' =>
           exists blocks,
             acc' = (ac ++ concat (fst <$> blocks), ae ++ (snd <$> blocks))
             /\ Forall2 (cached cache_dir (snd r)) (eligible names) blocks
       | Raise _ => ~ cache_readable st
       end.
Proof.
  induction names as [|file names IH]; intros ac ae st; cbv zeta.
  - simpl. repeat split; try done.
    exists []. simpl. by rewrite !app_nil_r.
  - change (for_each (file :: names) (ac, ae) (fetch_all_step cache_dir folder))
      with (bind (fetch_all_step cache_dir folder (ac, ae) file)
             (fun acc' => for_each names acc' (fetch_all_step cache_dir folder))).
    rewrite bind_run, fetch_all_step_run.
    unfold eligible. simpl List.filter. fold (eligible names).
    destruct (Py.endswith (Py.lower file) ".pdf") eqn:Hpdf.
    + pose proof (fetch_effect file
        (chunk_text_simple (load_pdf (Py.path_join folder file))) st) as Hf.
      cbv zeta in Hf.
      destruct (run (fetch _ _ _) st) as [[e|x] st1]; simpl in Hf.
      * destruct Hf as (Hsub & Hread & Hsat & Hc).
        specialize (IH (ac ++ fst e) (ae ++ [snd e]) st1). cbv zeta in IH.
        destruct (run (for_each names _ _) st1) as [r st2]. simpl in *.
        destruct IH as (Hsub' & Hread' & Hsat' & Hres).
        split; [by etrans|]. split; [by auto|]. split; [by auto|].
        destruct r as [acc'|x].
        -- destruct Hres as (blocks & -> & Hall).
           exists (e :: blocks). split.
           ++ simpl. by rewrite <- !app_assoc.
           ++ constructor; [by eapply cached_mono|done].
        -- intros Hr. by apply Hres, Hread.
      * simpl. by destruct Hf as (Hsub & Hread & Hsat & Hc).
    + apply IH.
Qed.

End FetchAllFacts.

Section FetchAllClaims.
Context {L : Libs}.
Variable cache_dir : string.

Lemma fetch_all_run folder names st :
  listdir folder = Ok names ->
  run (fetch_all cache_dir folder) st
  = match run (for_each names ([], []) (fetch_all_step cache_dir folder)) st with
    | (Ok (all_chunks, all_embeddings), st') =>
        if bool_decide (all_chunks = []) then (Raise empty_corpus, st')
        else (Ok (all_chunks, cat all_embeddings), st')
    | (Raise x, st') => (Raise x, st')
    end.
Proof.
  intros Hls. unfold fetch_all. rewrite bind_run.
  change (run (lift (listdir folder)) st) with (listdir folder, st).
  rewrite Hls, bind_run.
  destruct (run (for_each names _ _) st) as [[[ac ae]|x] st']; [|done].
  by destruct (bool_decide (ac = [])).
Qed.

Lemma fetch_all_listdir_fails folder x st :
  listdir folder = Raise x ->
  run (fetch_all cache_dir folder) st = (Raise x, st).
Proof.
  intros Hls. unfold fetch_all. rewrite bind_run.
  change (run (lift (listdir folder)) st) with (listdir folder, st).
  by rewrite Hls.
Qed.

Lemma zip_blocks (blocks : list (entry vec)) :
  Forall entry_aligned blocks ->
  zip (concat (fst <$> blocks)) (concat (snd <$> blocks))
  = concat ((fun e => zip (fst e) (snd e)) <$> blocks).
Proof.
  induction 1 as [|e blocks He _ IH]; [done|].
  csimpl. rewrite zip_with_app by done. by rewrite IH.
Qed.

Lemma length_blocks (blocks : list (entry vec)) :
  Forall entry_aligned blocks ->
  length (concat (fst <$> blocks)) = length (concat (snd <$> blocks)).
Proof.
  induction 1 as [|e blocks He _ IH]; [done|].
  csimpl. rewrite !length_app. unfold entry_aligned in He. lia.
Qed.

Hypothesis pickle_ok : pickle_contract L.

(** C5.  On a folder that lists and a cache whose files unpickle, the loop
    of [fetch_all] collects one cache entry per [.pdf] name of the
    listing, and [fetch_all] raises the empty-corpus [ValueError] exactly
    when the chunks collected are empty, which is the case when no name
    is eligible; otherwise it returns the chunks collected and the
    stacked rows. *)
Theorem fetch_all_empty_corpus folder names st :
  listdir folder = Ok names ->
  cache_readable st ->
  exists blocks st',
    let all_chunks := concat (fst <$> blocks) in
    Forall2 (cached cache_dir st') (eligible names) blocks
    /\ run (for_each names ([], []) (fetch_all_step cache_dir folder)) st
       = (Ok (all_chunks, snd <$> blocks), st')
    /\ (eligible names = [] -> all_chunks = [])
    /\ (all_chunks = [] <->
        run (fetch_all cache_dir folder) st = (Raise empty_corpus, st'))
    /\ (all_chunks <> [] <->
        run (fetch_all cache_dir folder) st
        = (Ok (all_chunks, concat (snd <$> blocks)), st')).
Proof.
  intros Hls Hread.
  pose proof (fetch_all_loop cache_dir pickle_ok folder names [] [] st) as Hloop.
  cbv zeta in Hloop. rewrite (fetch_all_run _ _ _ Hls).
  destruct (run (for_each names _ _) st) as [[acc'|x] st']; simpl in Hloop.
  - destruct Hloop as (_ & _ & _ & blocks & -> & Hall).
    exists blocks, st'. cbv zeta. simpl.
    split; [done|]. split; [done|]. split.
    { intros Hnone. rewrite Hnone in Hall.
      apply Forall2_nil_inv_l in Hall. by subst. }
    case_bool_decide as Hempty; split; split; done.
  - destruct Hloop as (_ & _ & _ & Hno). by destruct Hno.
Qed.

(** C7.  Whenever [fetch_all] returns, from a cache whose entries have one
    row per chunk, the pool has as many chunks as rows; chunks and rows
    are the concatenation, in the order of the listing, of the cache
    entries of the eligible documents, so that the pairs (chunk, row) of
    the pool are the pairs of these entries: row [i] is the row of chunk
    [i]. *)
Theorem fetch_all_pool_aligned folder st all_chunks all_embeddings st' :
  entries_sat entry_aligned st ->
  run (fetch_all cache_dir folder) st = (Ok (all_chunks, all_embeddings), st') ->
  length all_chunks = length all_embeddings
  /\ exists names blocks,
       listdir folder = Ok names
       /\ Forall2 (cached cache_dir st') (eligible names) blocks
       /\ Forall entry_aligned blocks
       /\ all_chunks = concat (fst <$> blocks)
       /\ all_embeddings = concat (snd <$> blocks)
       /\ zip all_chunks all_embeddings
          = concat ((fun e => zip (fst e) (snd e)) <$> blocks).
Proof.
  intros Hinv Hrun.
  destruct (listdir folder) as [names|x] eqn:Hls;
    [|by rewrite (fetch_all_listdir_fails _ _ _ Hls) in Hrun].
  rewrite (fetch_all_run _ _ _ Hls) in Hrun.
  pose proof (fetch_all_loop cache_dir pickle_ok folder names [] [] st) as Hloop.
  cbv zeta in Hloop.
  destruct (run (for_each names _ _) st) as [[[ac ae]|x] st1];
    simpl in Hloop; [|done].
  destruct Hloop as (_ & _ & Hsat & blocks & [= -> ->] & Hall).
  case_bool_decide; [done|]. injection Hrun as <- <- <-.
  assert (Hal : Forall entry_aligned blocks).
  { specialize (Hsat entry_aligned).
    eapply Forall2_Forall_r; [exact Hall|].
    apply Forall_forall. intros f _ e (b & Hb & He).
    eapply Hsat; [|done|exact Hb|exact He].
    intros c. unfold entry_aligned, fresh_entry. simpl.
    by rewrite length_fmap. }
  split; [by apply length_blocks|].
  exists names, blocks. unfold cat.
  repeat split; try done. by apply zip_blocks.
Qed.

End FetchAllClaims.

Section AskFacts.
Context {L : Libs}.


Hypothesis topk_ok : topk_contract L.


End AskFacts.

(** ** The claims on the reference libraries *)

Example pool_of_data_pdf :
  fst (run (L:=Ref.libs) (fetch_all "data/cache" "data/pdf") Ref.empty_store)
  = Ok (Ref.pool_chunks, Ref.pool_rows).
Proof. vm_compute. reflexivity. Qed.

Example top_1_of_pool :
  fst (run (retrieve_top_k (L:=Ref.libs) Ref.pool_chunks Ref.pool_rows "alpha fact two" 1)
         Ref.empty_store)
  = Ok ["alpha fact two"].
Proof. vm_compute. reflexivity. Qed.

Example ask_on_pool :
  fst (run (L:=Ref.libs) (ask Ref.chat "which alpha?" 2) Ref.empty_store)
  = Ok ("Q: which alpha? C: alpha fact two" +:+ Py.blank_line +:+ "alpha fact one").
Proof. vm_compute. reflexivity. Qed.

Example ask_default_on_small_pool :
  fst (run (L:=Ref.libs)
         (ask_default Ref.small_chat "q") Ref.empty_store)
  = Raise (RuntimeError "selected index k out of range").
Proof. vm_compute. reflexivity. Qed.

Example top_k_beyond_int64 :
  fst (run (retrieve_top_k (L:=Ref.libs) Ref.pool_chunks Ref.pool_rows "beta"
              (2 ^ 63)) Ref.empty_store)
  = Raise (ValueError "Overflow when unpacking long long").
Proof. vm_compute. reflexivity. Qed.

(** C1 fails on the code: on a pool of three chunks, [k = 4] raises and
    returns no chunk. *)
Lemma retrieve_top_k_no_clamp :
  length Ref.pool_chunks = length Ref.pool_rows
  /\ Z.of_nat (length Ref.pool_chunks) < 4
  /\ fst (run (retrieve_top_k (L:=Ref.libs) Ref.pool_chunks Ref.pool_rows "alpha fact two" 4)
            Ref.empty_store)
     = Raise (RuntimeError "selected index k out of range")
  /\ forall result,
       fst (run (retrieve_top_k (L:=Ref.libs) Ref.pool_chunks Ref.pool_rows "alpha fact two" 4)
              Ref.empty_store)
       <> Ok result.
Proof.
  split; [reflexivity|]. split; [reflexivity|].
  assert (H : fst (run (retrieve_top_k (L:=Ref.libs) Ref.pool_chunks Ref.pool_rows "alpha fact two" 4)
            Ref.empty_store)
     = Raise (RuntimeError "selected index k out of range"))
    by (vm_compute; reflexivity).
  split; [exact H|]. intros result. rewrite H. discriminate.
Qed.

(** C5 fails on the code: with two eligible documents in a folder that
    lists, and chunks already collected from the first, an empty cache
    file for the second makes [fetch_all] raise the [EOFError] of
    [pickle.load], which is neither the empty-corpus error nor a return;
    on a folder that does not list it raises the [FileNotFoundError] of
    [os.listdir]. *)
Lemma fetch_all_raises_other_errors :
  listdir (Libs:=Ref.raw_libs) "data/pdf" = Ok ["a.pdf"; "notes.txt"; "b.PDF"]
  /\ eligible ["a.pdf"; "notes.txt"; "b.PDF"] = ["a.pdf"; "b.PDF"]
  /\ fst (run (for_each ["a.pdf"] ([], [])
                (fetch_all_step (L:=Ref.raw_libs) "data/cache" "data/pdf"))
            Ref.truncated_store)
     = Ok (["alpha fact one"; "alpha fact two"],
           [Ref.embed <$> ["alpha fact one"; "alpha fact two"]])
  /\ fst (run (fetch_all (L:=Ref.raw_libs) "data/cache" "data/pdf")
            Ref.truncated_store)
     = Raise (PickleError (EOFError "Ran out of input"))
  /\ fst (run (fetch_all (L:=Ref.raw_libs) "data/cache" "data/pdf")
            Ref.truncated_store)
     <> Raise empty_corpus
  /\ fst (run (fetch_all (L:=Ref.raw_libs) "data/cache" "data/nowhere")
            Ref.truncated_store)
     = Raise (FileNotFoundError "data/nowhere").
Proof.
  assert (H : fst (run (fetch_all (L:=Ref.raw_libs) "data/cache" "data/pdf")
                     Ref.truncated_store)
              = Raise (PickleError (EOFError "Ran out of input")))
    by (vm_compute; reflexivity).
  split; [reflexivity|]. split; [reflexivity|].
  split; [vm_compute; reflexivity|]. split; [exact H|].
  split; [rewrite H; discriminate|]. vm_compute. reflexivity.
Qed.

(** ** The theorems at concrete inputs *)


Lemma retrieve_top_k_beyond_pool_witness :
  topk_contract Ref.libs
  /\ length Ref.pool_chunks = length Ref.pool_rows
  /\ Z.of_nat (length Ref.pool_chunks) < 4
  /\ run (retrieve_top_k (L:=Ref.libs) Ref.pool_chunks Ref.pool_rows "beta" 4)
         Ref.empty_store
     = (Raise (RuntimeError "selected index k out of range"), bump Ref.empty_store)
  /\ exists idx result,
       run (retrieve_top_k (L:=Ref.libs) Ref.pool_chunks Ref.pool_rows "beta"
              (Z.of_nat (length Ref.pool_chunks))) Ref.empty_store
       = (Ok result, bump Ref.empty_store)
       /\ result ≡ₚ Ref.pool_chunks
       /\ is_topk (scores_of (L:=Ref.libs) Ref.pool_rows "beta")
            (length Ref.pool_chunks) idx
       /\ chunks_at Ref.pool_chunks idx result.
Proof.
  split; [exact RefFacts.topk_contract_ref|].
  split; [reflexivity|]. split; [reflexivity|].
  apply (retrieve_top_k_beyond_pool (L:=Ref.libs) RefFacts.topk_contract_ref
           Ref.pool_chunks Ref.pool_rows "beta" 4 Ref.empty_store);
    reflexivity.
Defined.

Lemma fetch_twice_encodes_once_witness :
  pickle_contract Ref.libs
  /\ let fetch_a := fetch (L:=Ref.libs) "data/cache" "a.pdf" ["alpha"] in
     let r1 := fst (run fetch_a Ref.empty_store) in
     let st1 := snd (run fetch_a Ref.empty_store) in
     let r2 := fst (run fetch_a st1) in
     let st2 := snd (run fetch_a st1) in
     (encode_calls st2 <= encode_calls Ref.empty_store + 1)%nat
     /\ st2 = st1
     /\ r2 = r1
     /\ (files Ref.empty_store !! get_cache_path "data/cache" "a.pdf" = None ->
         r1 = Ok (["alpha"], encode <$> ["alpha"])
         /\ files st1 !! get_cache_path "data/cache" "a.pdf"
            = Some (pickle_dumps (["alpha"], encode <$> ["alpha"]))
         /\ encode_calls st1 = (encode_calls Ref.empty_store + 1)%nat
         /\ r2 = Ok (["alpha"], encode <$> ["alpha"])
         /\ encode_calls st2 = (encode_calls Ref.empty_store + 1)%nat).
Proof.
  split; [exact RefFacts.pickle_contract_ref|].
  exact (fetch_twice_encodes_once (L:=Ref.libs) "data/cache"
           RefFacts.pickle_contract_ref "a.pdf" ["alpha"] Ref.empty_store).
Defined.

Lemma create_load_roundtrip_witness :
  pickle_contract Ref.libs
  /\ exists embeddings st',
       fst (run (model_encode_batch (L:=Ref.libs) ["alpha"; "beta"]) Ref.empty_store)
       = Ok embeddings
       /\ run (create "data/cache" "a.pdf" ["alpha"; "beta"]) Ref.empty_store
          = (Ok tt, st')
       /\ run (load "data/cache" "a.pdf") st' = (Ok (["alpha"; "beta"], embeddings), st')
       /\ run (create "data/cache" "a.pdf" ["alpha"; "beta"] ;;;
               load "data/cache" "a.pdf") Ref.empty_store
          = (Ok (["alpha"; "beta"], embeddings), st').
Proof.
  split; [exact RefFacts.pickle_contract_ref|].
  exact (create_load_roundtrip (L:=Ref.libs) "data/cache"
           RefFacts.pickle_contract_ref "a.pdf" ["alpha"; "beta"] Ref.empty_store).
Defined.

Lemma retrieve_top_k_selects_witness :
  topk_contract Ref.libs
  /\ length Ref.pool_chunks = length Ref.pool_rows
  /\ 0 <= 2 <= Z.of_nat (length Ref.pool_chunks)
  /\ exists idx result,
       run (retrieve_top_k (L:=Ref.libs) Ref.pool_chunks Ref.pool_rows "beta" 2)
           Ref.empty_store
       = (Ok result, bump Ref.empty_store)
       /\ length result = Z.to_nat 2
       /\ is_topk (scores_of (L:=Ref.libs) Ref.pool_rows "beta") (Z.to_nat 2) idx
       /\ chunks_at Ref.pool_chunks idx result.
Proof.
  split; [exact RefFacts.topk_contract_ref|].
  split; [reflexivity|]. split; [simpl; lia|].
  apply (retrieve_top_k_selects (L:=Ref.libs) RefFacts.topk_contract_ref
           Ref.pool_chunks Ref.pool_rows "beta" 2 Ref.empty_store);
    [reflexivity | simpl; lia].
Defined.

Lemma retrieve_top_k_zero_witness :
  topk_contract Ref.libs
  /\ run (retrieve_top_k (L:=Ref.libs) Ref.pool_chunks Ref.pool_rows "beta" 0)
         Ref.empty_store
     = (Ok [], bump Ref.empty_store).
Proof.
  split; [exact RefFacts.topk_contract_ref|].
  exact (retrieve_top_k_zero (L:=Ref.libs) RefFacts.topk_contract_ref
           Ref.pool_chunks Ref.pool_rows "beta" Ref.empty_store).
Defined.

Lemma stale_store_readable : cache_readable Ref.stale_store.
Proof. intros p b _. by exists b. Qed.

Lemma stale_store_aligned : entries_sat entry_aligned Ref.stale_store.
Proof.
  intros p b e Hb He.
  change Ref.stale_store
    with (created (L:=Ref.libs) "data/cache" "a.pdf" ["old alpha"] Ref.empty_store)
    in Hb.
  unfold created in Hb. simpl in Hb.
  apply lookup_insert_Some in Hb as [[_ <-]|[_ Hb]];
    [|by rewrite lookup_empty in Hb].
  injection He as <-. reflexivity.
Qed.

Lemma fetch_all_empty_corpus_witness :
  pickle_contract Ref.libs
  /\ listdir (Libs:=Ref.libs) "data/pdf" = Ok ["a.pdf"; "notes.txt"; "b.PDF"]
  /\ cache_readable Ref.stale_store
  /\ exists blocks st',
       let all_chunks := concat (fst <$> blocks) in
       Forall2 (cached "data/cache" st')
         (eligible ["a.pdf"; "notes.txt"; "b.PDF"]) blocks
       /\ run (for_each ["a.pdf"; "notes.txt"; "b.PDF"] ([], [])
                 (fetch_all_step "data/cache" "data/pdf")) Ref.stale_store
          = (Ok (all_chunks, snd <$> blocks), st')
       /\ (eligible ["a.pdf"; "notes.txt"; "b.PDF"] = [] -> all_chunks = [])
       /\ (all_chunks = [] <->
           run (fetch_all "data/cache" "data/pdf") Ref.stale_store
           = (Raise empty_corpus, st'))
       /\ (all_chunks <> [] <->
           run (fetch_all "data/cache" "data/pdf") Ref.stale_store
           = (Ok (all_chunks, concat (snd <$> blocks)), st')).
Proof.
  split; [exact RefFacts.pickle_contract_ref|].
  split; [reflexivity|]. split; [exact stale_store_readable|].
  apply (fetch_all_empty_corpus (L:=Ref.libs) "data/cache"
           RefFacts.pickle_contract_ref "data/pdf"
           ["a.pdf"; "notes.txt"; "b.PDF"] Ref.stale_store);
    [reflexivity | exact stale_store_readable].
Defined.

Lemma fetch_all_pool_aligned_witness :
  let all_chunks := ["old alpha"; "beta fact one"] in
  let all_embeddings := Ref.embed <$> ["old alpha"; "beta fact one"] in
  let st' := snd (run (fetch_all "data/cache" "data/pdf") Ref.stale_store) in
  pickle_contract Ref.libs
  /\ entries_sat entry_aligned Ref.stale_store
  /\ run (fetch_all "data/cache" "data/pdf") Ref.stale_store
     = (Ok (all_chunks, all_embeddings), st')
  /\ length all_chunks = length all_embeddings
  /\ exists names blocks,
       listdir (Libs:=Ref.libs) "data/pdf" = Ok names
       /\ Forall2 (cached "data/cache" st') (eligible names) blocks
       /\ Forall entry_aligned blocks
       /\ all_chunks = concat (fst <$> blocks)
       /\ all_embeddings = concat (snd <$> blocks)
       /\ zip all_chunks all_embeddings
          = concat ((fun e => zip (fst e) (snd e)) <$> blocks).
Proof.
  cbv zeta.
  assert (Hfst :
    fst (run (fetch_all "data/cache" "data/pdf") Ref.stale_store)
    = Ok (["old alpha"; "beta fact one"],
           Ref.embed <$> ["old alpha"; "beta fact one"]))
    by (vm_compute; reflexivity).
  assert (Hrun :
    run (fetch_all "data/cache" "data/pdf") Ref.stale_store
    = (Ok (["old alpha"; "beta fact one"],
           Ref.embed <$> ["old alpha"; "beta fact one"]),
       snd (run (fetch_all "data/cache" "data/pdf") Ref.stale_store))).
  { rewrite <- Hfst. apply surjective_pairing. }
  split; [exact RefFacts.pickle_contract_ref|].
  split; [exact stale_store_aligned|]. split; [exact Hrun|].
  exact (fetch_all_pool_aligned (L:=Ref.libs) "data/cache"
           RefFacts.pickle_contract_ref "data/pdf" Ref.stale_store _ _ _
           stale_store_aligned Hrun).
Defined.

Lemma fetch_ignores_fallback_witness :
  let b : @blob Ref.libs := (["old alpha"], [Ref.embed "old alpha"]) in
  files Ref.stale_store !! get_cache_path "data/cache" "a.pdf" = Some b
  /\ (run (fetch "data/cache" "a.pdf" ["new alpha"]) Ref.stale_store
      = run (fetch "data/cache" "a.pdf" []) Ref.stale_store
      /\ forall cached_chunks cached_rows,
           pickle_loads b = Some (cached_chunks, cached_rows) ->
           run (fetch "data/cache" "a.pdf" ["new alpha"]) Ref.stale_store
           = (Ok (cached_chunks, cached_rows), Ref.stale_store)
           /\ forall pdf_folder all_chunks all_embeddings,
                Py.endswith (Py.lower "a.pdf") ".pdf" = true ->
                run (fetch_all_step "data/cache" pdf_folder
                       (all_chunks, all_embeddings) "a.pdf") Ref.stale_store
                = (Ok (all_chunks ++ cached_chunks,
                       all_embeddings ++ [cached_rows]), Ref.stale_store)).
Proof.
  cbv zeta.
  assert (Hlk : files Ref.stale_store !! get_cache_path "data/cache" "a.pdf"
                = Some ((["old alpha"], [Ref.embed "old alpha"]) : @blob Ref.libs))
    by (vm_compute; reflexivity).
  split; [exact Hlk|].
  exact (fetch_ignores_fallback (L:=Ref.libs) "data/cache" "a.pdf"
           ["new alpha"] [] Ref.stale_store _ Hlk).
Defined.

(** * Further properties of the code *)

(** ** [get_cache_path]: the extension is dropped *)

Section PathFacts.

Lemma rfind_from_absent c s i last :
  Py.contains c s = false -> Py.rfind_from c s i last = last.
Proof.
  revert i last. induction s as [|d s IH]; intros i last Hc; [done|].
  simpl in *. apply orb_false_iff in Hc as [Hd Hs].
  rewrite Hd. by apply IH.
Qed.

Lemma rfind_from_app c s1 s2 i last :
  Py.rfind_from c (s1 +:+ s2) i last
  = Py.rfind_from c s2 (i + Z.of_nat (String.length s1))
      (Py.rfind_from c s1 i last).
Proof.
  revert i last. induction s1 as [|d s1 IH]; intros i last; simpl.
  - by rewrite Z.add_0_r.
  - rewrite IH. f_equal. lia.
Qed.

Lemma take_str_app s1 s2 : Py.take_str (String.length s1) (s1 +:+ s2) = s1.
Proof. induction s1 as [|d s1 IH]; simpl; [by destruct s2|by rewrite IH]. Qed.

Lemma drop_str_app s1 s2 : Py.drop_str (String.length s1) (s1 +:+ s2) = s2.
Proof. induction s1 as [|d s1 IH]; simpl; done. Qed.

Lemma contains_app c s1 s2 :
  Py.contains c (s1 +:+ s2) = Py.contains c s1 || Py.contains c s2.
Proof.
  induction s1 as [|d s1 IH]; simpl; [done|]. by rewrite IH, orb_assoc.
Qed.

Lemma splitext_base_ext base ext :
  Py.contains "/" base = false ->
  Py.has_other "." base = true ->
  Py.contains "." ext = false ->
  Py.contains "/" ext = false ->
  Py.splitext (base +:+ "." +:+ ext) = (base, "." +:+ ext).
Proof.
  intros Hsep Hroot Hdot Hsep'.
  unfold Py.splitext, Py.rfind.
  assert (Hs : Py.rfind_from "/" (base +:+ "." +:+ ext) 0 (-1) = -1).
  { apply rfind_from_absent. rewrite contains_app, Hsep. simpl. exact Hsep'. }
  assert (Hd : Py.rfind_from "." (base +:+ "." +:+ ext) 0 (-1)
               = Z.of_nat (String.length base)).
  { rewrite rfind_from_app. simpl. by rewrite rfind_from_absent. }
  rewrite Hs, Hd.
  replace (Z.to_nat (Z.of_nat (String.length base) - (-1 + 1)))
    with (String.length base) by lia.
  replace (Z.to_nat (-1 + 1)) with 0%nat by lia.
  rewrite Nat2Z.id. simpl Py.drop_str at 1.
  rewrite take_str_app, drop_str_app, Hroot.
  destruct (-1 <? Z.of_nat (String.length base)) eqn:E; [done|lia].
Qed.

End PathFacts.

Section CacheMore.
Context {L : Libs}.
Variable cache_dir : string.

Local Abbreviation path := (get_cache_path cache_dir).

(** X1.  For a file name [base.ext] (no separator, an extension without a
    dot, a base that is not made of dots only), the cache file is
    [base.pkl] in the cache directory: the extension plays no part, so two
    names that differ in their extension only share one cache file. *)
Theorem get_cache_path_drops_extension base ext ext' :
  Py.contains "/" base = false ->
  Py.has_other "." base = true ->
  Py.contains "." ext = false -> Py.contains "/" ext = false ->
  Py.contains "." ext' = false -> Py.contains "/" ext' = false ->
  path (base +:+ "." +:+ ext) = Py.path_join cache_dir (base +:+ ".pkl")
  /\ path (base +:+ "." +:+ ext) = path (base +:+ "." +:+ ext').
Proof.
  intros Hb Hr He1 He2 He1' He2'. unfold get_cache_path.
  by rewrite !splitext_base_ext.
Qed.

(** X4.  [create] touches one file: [load] of a name with another cache
    file returns after it what it returned before. *)
Theorem create_keeps_other_entries pdf_name chunks other st :
  path other <> path pdf_name ->
  fst (run (load cache_dir other) (created cache_dir pdf_name chunks st))
  = fst (run (load cache_dir other) st).
Proof.
  intros Hne.
  assert (Hlk : files (created cache_dir pdf_name chunks st) !! path other
                = files st !! path other).
  { unfold created. simpl. by apply lookup_insert_ne. }
  destruct (files st !! path other) as [b|] eqn:Hb.
  - by rewrite (load_hit _ _ _ _ Hlk), (load_hit _ _ _ _ Hb).
  - by rewrite (load_miss _ _ _ Hlk), (load_miss _ _ _ Hb).
Qed.

(** X5.  A cache file that does not unpickle is not repaired: [load] and
    [fetch] raise what [pickle.load] raised, whatever its class ([EOFError]
    on an empty file, [UnpicklingError], ...), since [fetch] catches
    [FileNotFoundError] only; the model is not called and the file stays as
    it is. *)
Theorem fetch_keeps_corrupt_entry pdf_name chunks st b :
  files st !! path pdf_name = Some b ->
  pickle_loads b = None ->
  run (load cache_dir pdf_name) st = (Raise (PickleError (pickle_error b)), st)
  /\ run (fetch cache_dir pdf_name chunks) st
     = (Raise (PickleError (pickle_error b)), st).
Proof.
  intros Hlk Hbad.
  rewrite (fetch_hit _ _ chunks _ _ Hlk), (load_hit _ _ _ _ Hlk), Hbad.
  done.
Qed.

(** A miss of [fetch] adds the file of the name and nothing else. *)
Lemma fetch_miss_store pdf_name chunks st :
  files st !! path pdf_name = None ->
  snd (run (fetch cache_dir pdf_name chunks) st)
  = created cache_dir pdf_name chunks st.
Proof.
  intros Hlk. rewrite (fetch_miss _ _ chunks _ Hlk).
  rewrite (load_hit _ _ _ _ (created_lookup _ _ _ _)). done.
Qed.

Hypothesis pickle_ok : pickle_contract L.

(** X3.  [create] overwrites: after two [create] of one name, the cache
    file holds the second entry only, [load] returns the second chunks with
    their rows, and the model was called twice. *)
Theorem create_overwrites pdf_name c1 c2 st :
  let st2 :=
    {| files := <[path pdf_name := pickle_dumps (fresh_entry c2)]> (files st);
       encode_calls := S (S (encode_calls st)) |} in
  run (create cache_dir pdf_name c1 ;;; create cache_dir pdf_name c2) st
  = (Ok tt, st2)
  /\ run (load cache_dir pdf_name) st2 = (Ok (c2, encode <$> c2), st2).
Proof.
  cbv zeta. split.
  - rewrite bind_run, !create_run. unfold created. simpl. do 2 f_equal.
    apply insert_insert_eq.
  - erewrite load_hit; [|apply lookup_insert_eq]. by rewrite pickle_ok.
Qed.

(** X2.  The collision of two names that differ in their extension only:
    after [create] for [base.ext], [load] and [fetch] of [base.ext'] return
    the entry of [base.ext], and [fetch] neither encodes its own chunks nor
    changes the store. *)
Theorem extension_collision base ext ext' c c' st :
  Py.contains "/" base = false ->
  Py.has_other "." base = true ->
  Py.contains "." ext = false -> Py.contains "/" ext = false ->
  Py.contains "." ext' = false -> Py.contains "/" ext' = false ->
  let st1 := snd (run (create cache_dir (base +:+ "." +:+ ext) c) st) in
  run (load cache_dir (base +:+ "." +:+ ext')) st1 = (Ok (c, encode <$> c), st1)
  /\ run (fetch cache_dir (base +:+ "." +:+ ext') c') st1
     = (Ok (c, encode <$> c), st1).
Proof.
  intros Hb Hr He1 He2 He1' He2'. cbv zeta. rewrite create_run. simpl.
  assert (Hlk : files (created cache_dir (base +:+ "." +:+ ext) c st)
                  !! path (base +:+ "." +:+ ext')
                = Some (pickle_dumps (fresh_entry c))).
  { unfold get_cache_path. rewrite (splitext_base_ext base ext') by done.
    rewrite <- (created_lookup cache_dir (base +:+ "." +:+ ext) c st).
    unfold get_cache_path. by rewrite (splitext_base_ext base ext). }
  rewrite (fetch_hit _ _ c' _ _ Hlk), (load_hit _ _ _ _ Hlk), pickle_ok.
  done.
Qed.

End CacheMore.

(** ** [fetch_all] and [reset] on the cache *)

Section PoolMore.
Context {L : Libs}.
Variable cache_dir : string.

Local Abbreviation path := (get_cache_path cache_dir).

Lemma fetch_grows pdf_name chunks st :
  let st' := snd (run (fetch cache_dir pdf_name chunks) st) in
  files st ⊆ files st'
  /\ (encode_calls st <= encode_calls st' <= S (encode_calls st))%nat.
Proof.
  cbv zeta. destruct (files st !! path pdf_name) as [b|] eqn:Hlk.
  - rewrite (fetch_hit _ _ chunks _ _ Hlk), (load_hit _ _ _ _ Hlk). simpl.
    split; [done|lia].
  - rewrite (fetch_miss_store _ _ chunks _ Hlk). unfold created. simpl.
    split; [by apply insert_subseteq|lia].
Qed.

Lemma fetch_all_loop_grows folder names :
  forall ac ae st,
    let st' := snd (run (for_each names (ac, ae)
                           (fetch_all_step cache_dir folder)) st) in
    files st ⊆ files st'
    /\ (encode_calls st <= encode_calls st'
        <= encode_calls st + length (eligible names))%nat.
Proof.
  induction names as [|file names IH]; intros ac ae st; cbv zeta.
  - simpl. split; [done|lia].
  - change (for_each (file :: names) (ac, ae) (fetch_all_step cache_dir folder))
      with (bind (fetch_all_step cache_dir folder (ac, ae) file)
             (fun acc' => for_each names acc' (fetch_all_step cache_dir folder))).
    rewrite bind_run, fetch_all_step_run.
    unfold eligible. simpl List.filter. fold (eligible names).
    destruct (Py.endswith (Py.lower file) ".pdf") eqn:Hpdf.
    + pose proof (fetch_grows file
        (chunk_text_simple (load_pdf (Py.path_join folder file))) st) as Hf.
      cbv zeta in Hf.
      destruct (run (fetch _ _ _) st) as [[e|x] st1]; simpl in Hf.
      * specialize (IH (ac ++ fst e) (ae ++ [snd e]) st1). cbv zeta in IH.
        destruct IH as [Hsub Hcalls]. destruct Hf as [Hsub1 Hcalls1].
        split; [by etrans|]. simpl. lia.
      * simpl. destruct Hf as [Hsub1 Hcalls1]. split; [done|lia].
    + apply IH.
Qed.

(** X6.  [fetch_all] never removes or overwrites a cache file, and calls
    the model at most once per eligible document; when the folder cannot
    be listed it leaves the store as it is. *)
Theorem fetch_all_keeps_cache folder st :
  let st' := snd (run (fetch_all cache_dir folder) st) in
  files st ⊆ files st'
  /\ (encode_calls st <= encode_calls st')%nat
  /\ match listdir folder with
     | Ok names =>
         (encode_calls st' <= encode_calls st + length (eligible names))%nat
     | Raise _ => st' = st
     end.
Proof.
  cbv zeta. destruct (listdir folder) as [names|x] eqn:Hls.
  - rewrite (fetch_all_run _ _ _ _ Hls).
    pose proof (fetch_all_loop_grows folder names [] [] st) as Hg.
    cbv zeta in Hg.
    destruct (run (for_each names _ _) st) as [[[ac ae]|x] st1]; simpl in Hg.
    + destruct Hg as [Hsub Hcalls].
      case_bool_decide; simpl; (split; [done|]); lia.
    + simpl. destruct Hg as [Hsub Hcalls]. split; [done|]. lia.
  - rewrite (fetch_all_listdir_fails _ _ _ _ Hls). simpl.
    split; [done|]. split; [lia|done].
Qed.

(** The loop on a warm cache: every eligible document is a hit. *)
Lemma fetch_all_loop_warm folder names :
  forall blocks ac ae st,
    Forall2 (cached cache_dir st) (eligible names) blocks ->
    run (for_each names (ac, ae) (fetch_all_step cache_dir folder)) st
    = (Ok (ac ++ concat (fst <$> blocks), ae ++ (snd <$> blocks)), st).
Proof.
  induction names as [|file names IH]; intros blocks ac ae st Hall.
  - apply Forall2_nil_inv_l in Hall as ->. simpl. by rewrite !app_nil_r.
  - change (for_each (file :: names) (ac, ae) (fetch_all_step cache_dir folder))
      with (bind (fetch_all_step cache_dir folder (ac, ae) file)
             (fun acc' => for_each names acc' (fetch_all_step cache_dir folder))).
    rewrite bind_run, fetch_all_step_run.
    unfold eligible in Hall. simpl List.filter in Hall. fold (eligible names) in Hall.
    destruct (Py.endswith (Py.lower file) ".pdf") eqn:Hpdf.
    + apply Forall2_cons_inv_l in Hall as (e & blocks' & (b & Hb & He) & Hall & ->).
      rewrite (fetch_hit _ _ _ _ _ Hb), (load_hit _ _ _ _ Hb), He.
      rewrite (IH blocks' _ _ st Hall). simpl. by rewrite <- !app_assoc.
    + by apply IH.
Qed.

(** X8.  The loop of [fetch_all] skips every name without a [.pdf] suffix:
    it runs as on the listing with these names removed. *)
Theorem fetch_all_loop_skips folder names ac ae st :
  run (for_each names (ac, ae) (fetch_all_step cache_dir folder)) st
  = run (for_each (eligible names) (ac, ae) (fetch_all_step cache_dir folder)) st.
Proof.
  revert ac ae st. induction names as [|file names IH]; intros ac ae st; [done|].
  unfold eligible. simpl List.filter. fold (eligible names).
  change (for_each (file :: names) (ac, ae) (fetch_all_step cache_dir folder))
    with (bind (fetch_all_step cache_dir folder (ac, ae) file)
           (fun acc' => for_each names acc' (fetch_all_step cache_dir folder))).
  rewrite bind_run.
  destruct (Py.endswith (Py.lower file) ".pdf") eqn:Hpdf.
  - change (for_each (file :: eligible names) (ac, ae)
              (fetch_all_step cache_dir folder))
      with (bind (fetch_all_step cache_dir folder (ac, ae) file)
             (fun acc' => for_each (eligible names) acc'
                            (fetch_all_step cache_dir folder))).
    rewrite bind_run.
    destruct (run (fetch_all_step _ _ _ _) st) as [[[ac' ae']|x] st1]; [|done].
    apply IH.
  - rewrite fetch_all_step_run, Hpdf. apply IH.
Qed.

Hypothesis pickle_ok : pickle_contract L.

(** X7.  A second [fetch_all] right after a successful one returns the same
    pool without calling the model or touching the store. *)
Theorem fetch_all_again folder st pool st' :
  run (fetch_all cache_dir folder) st = (Ok pool, st') ->
  run (fetch_all cache_dir folder) st' = (Ok pool, st').
Proof.
  intros Hrun.
  destruct (listdir folder) as [names|x] eqn:Hls;
    [|by rewrite (fetch_all_listdir_fails _ _ _ _ Hls) in Hrun].
  rewrite (fetch_all_run _ _ _ st Hls) in Hrun.
  rewrite (fetch_all_run _ _ _ st' Hls).
  pose proof (fetch_all_loop cache_dir pickle_ok folder names [] [] st) as Hloop.
  cbv zeta in Hloop.
  destruct (run (for_each names _ _) st) as [[[ac ae]|x] st1];
    simpl in Hloop; [|done].
  destruct Hloop as (_ & _ & _ & blocks & [= -> ->] & Hall).
  case_bool_decide as Hne; [done|]. injection Hrun as <- <-.
  rewrite (fetch_all_loop_warm folder names blocks [] [] st1 Hall). simpl.
  by rewrite bool_decide_eq_false_2.
Qed.

End PoolMore.

Section ResetMore.
Context {L : Libs}.
Variable cache_dir : string.

Local Abbreviation path := (get_cache_path cache_dir).

Lemma reset_step_run folder file st :
  run (reset_step cache_dir folder tt file) st
  = if Py.endswith (Py.lower file) ".pdf"
    then (Ok tt, created cache_dir file (chunks_of folder file) st)
    else (Ok tt, st).
Proof. unfold reset_step. by destruct (Py.endswith _ _). Qed.

(** The loop of [reset]: it cannot fail, encodes every eligible document,
    removes no file, leaves a file for every eligible document, and every
    file it leaves was there before or is the fresh entry of an eligible
    document. *)
Lemma reset_loop folder names :
  forall st, exists st',
    run (for_each names tt (reset_step cache_dir folder)) st = (Ok tt, st')
    /\ encode_calls st' = (encode_calls st + length (eligible names))%nat
    /\ (forall p, is_Some (files st !! p) -> is_Some (files st' !! p))
    /\ (forall f, f ∈ eligible names -> is_Some (files st' !! path f))
    /\ (forall p b, files st' !! p = Some b ->
          files st !! p = Some b
          \/ exists f, f ∈ eligible names /\ p = path f
               /\ b = pickle_dumps (fresh_entry (chunks_of folder f))).
Proof.
  induction names as [|file names IH]; intros st.
  - exists st. simpl. repeat split; try done; try lia.
    + intros f Hf. by apply elem_of_nil in Hf.
    + intros p b Hb. by left.
  - change (for_each (file :: names) tt (reset_step cache_dir folder))
      with (bind (reset_step cache_dir folder tt file)
             (fun acc' => for_each names acc' (reset_step cache_dir folder))).
    rewrite bind_run, reset_step_run.
    unfold eligible. simpl List.filter. fold (eligible names).
    destruct (Py.endswith (Py.lower file) ".pdf") eqn:Hpdf.
    + destruct (IH (created cache_dir file (chunks_of folder file) st))
        as (st' & Hrun & Hcalls & Hmono & Hcov & Horigin).
      exists st'. split; [done|]. split; [simpl in *; lia|].
      assert (Hstep : forall p, is_Some (files st !! p) ->
                is_Some (files (created cache_dir file (chunks_of folder file) st) !! p)).
      { intros p Hp. unfold created. simpl.
        apply lookup_insert_is_Some'. by right. }
      split; [by auto|]. split.
      * intros f Hf. apply elem_of_cons in Hf as [->|Hf]; [|by auto].
        apply Hmono. rewrite created_lookup. eauto.
      * intros p b Hb. destruct (Horigin p b Hb) as [Hold|(f & Hf & -> & ->)].
        -- unfold created in Hold. simpl in Hold.
           apply lookup_insert_Some in Hold as [[<- <-]|[_ Hold]]; [|by left].
           right. exists file. split; [by left|done].
        -- right. exists f. split; [by right|done].
    + apply IH.
Qed.

(** X9.  [reset] clears the cache before it lists the folder: when the
    folder cannot be listed, the exception of [os.listdir] comes out and
    the cache is already empty. *)
Theorem reset_clears_before_listing folder x st :
  listdir folder = Raise x ->
  run (reset cache_dir folder) st = (Raise x, cleared st).
Proof.
  intros Hls. unfold reset. rewrite bind_run.
  change (run clear st) with (Ok tt, cleared st). cbv beta iota.
  rewrite bind_run.
  change (run (lift (listdir folder)) (cleared st))
    with (listdir folder, cleared st).
  by rewrite Hls.
Qed.

Lemma reset_effect folder names st :
  listdir folder = Ok names ->
  exists st',
    run (reset cache_dir folder) st = (Ok tt, st')
    /\ encode_calls st' = (encode_calls st + length (eligible names))%nat
    /\ (forall f, f ∈ eligible names -> is_Some (files st' !! path f))
    /\ (forall p b, files st' !! p = Some b ->
          exists f, f ∈ eligible names /\ p = path f
            /\ b = pickle_dumps (fresh_entry (chunks_of folder f))).
Proof.
  intros Hls.
  destruct (reset_loop folder names (cleared st))
    as (st' & Hrun & Hcalls & _ & Hcov & Horigin).
  exists st'. split; [|split; [done|split; [done|]]].
  - unfold reset. rewrite bind_run.
    change (run clear st) with (Ok tt, cleared st). cbv beta iota.
    rewrite bind_run.
    change (run (lift (listdir folder)) (cleared st))
      with (listdir folder, cleared st).
    by rewrite Hls.
  - intros p b Hb. destruct (Horigin p b Hb) as [Hold|H]; [|done].
    unfold cleared in Hold. simpl in Hold. by rewrite lookup_empty in Hold.
Qed.

(** X10.  On a folder that lists, [reset] succeeds, calls the model once
    per eligible document, and leaves a cache that has a file for every
    eligible document and nothing but fresh entries of eligible documents:
    no entry from before survives. *)
Theorem reset_rebuilds folder names st :
  listdir folder = Ok names ->
  exists st',
    run (reset cache_dir folder) st = (Ok tt, st')
    /\ encode_calls st' = (encode_calls st + length (eligible names))%nat
    /\ (forall f, f ∈ eligible names -> is_Some (files st' !! path f))
    /\ (forall p b, files st' !! p = Some b ->
          exists f, f ∈ eligible names /\ p = path f
            /\ b = pickle_dumps (fresh_entry (chunks_of folder f))).
Proof. apply reset_effect. Qed.

Lemma NoDup_fmap_eq {A B} (f : A -> B) (l : list A) x y :
  NoDup (f <$> l) -> x ∈ l -> y ∈ l -> f x = f y -> x = y.
Proof.
  induction l as [|a l IH]; intros Hnd Hx Hy Hxy.
  - by apply elem_of_nil in Hx.
  - rewrite fmap_cons in Hnd. apply NoDup_cons in Hnd as [Ha Hnd].
    apply elem_of_cons in Hx as [->|Hx]; apply elem_of_cons in Hy as [->|Hy].
    + done.
    + destruct Ha. rewrite Hxy. by apply list_elem_of_fmap_2.
    + destruct Ha. rewrite <- Hxy. by apply list_elem_of_fmap_2.
    + by apply IH.
Qed.

Lemma concat_fresh (docs : list (list string)) :
  concat (snd <$> (fresh_entry <$> docs)) = encode <$> concat docs.
Proof.
  induction docs as [|c docs IH]; [done|].
  csimpl. by rewrite fmap_app, IH.
Qed.

Lemma concat_fresh_chunks (docs : list (list string)) :
  concat (fst <$> (fresh_entry (L:=L) <$> docs)) = concat docs.
Proof.
  induction docs as [|c docs IH]; [done|]. csimpl. by rewrite IH.
Qed.

Hypothesis pickle_ok : pickle_contract L.

(** X11.  Rebuild, then load: when the eligible documents of the folder
    have distinct cache files, [fetch_all] after [reset] returns the chunks
    that were cut from the documents, in the order of the listing, with the
    rows of these chunks, and does not call the model again; it raises the
    empty-corpus error when no chunk was cut. *)
Theorem reset_then_fetch_all folder names st :
  listdir folder = Ok names ->
  NoDup (path <$> eligible names) ->
  let all_chunks := concat (chunks_of folder <$> eligible names) in
  exists st',
    run (reset cache_dir folder) st = (Ok tt, st')
    /\ encode_calls st' = (encode_calls st + length (eligible names))%nat
    /\ run (fetch_all cache_dir folder) st'
       = (if bool_decide (all_chunks = []) then Raise empty_corpus
          else Ok (all_chunks, encode <$> all_chunks), st').
Proof.
  intros Hls Hnd. cbv zeta.
  destruct (reset_effect folder names st Hls)
    as (st' & Hrun & Hcalls & Hcov & Horigin).
  exists st'. split; [done|]. split; [done|].
  assert (Hall : Forall2 (cached cache_dir st') (eligible names)
                   (fresh_entry <$> (chunks_of folder <$> eligible names))).
  { rewrite <- list_fmap_compose. apply Forall2_fmap_r.
    apply Forall_Forall2_diag, Forall_forall. intros f Hf.
    destruct (Hcov f Hf) as [b Hb].
    destruct (Horigin _ _ Hb) as (g & Hg & Hpath & ->).
    assert (f = g) as <- by (by eapply (NoDup_fmap_eq path)).
    eexists. split; [exact Hb|]. simpl. apply pickle_ok. }
  rewrite (fetch_all_run _ _ _ _ Hls).
  rewrite (fetch_all_loop_warm cache_dir folder names _ [] [] st' Hall).
  simpl. unfold cat. rewrite concat_fresh, concat_fresh_chunks.
  by case_bool_decide.
Qed.

End ResetMore.

(** ** Retrieval and the chat on their edges *)

Section RetrievalMore.
Context {L : Libs}.

Lemma comprehension_getitem_store chunks idx st :
  snd (run (comprehension (getitem chunks) idx) st) = st.
Proof.
  induction idx as [|i idx IH]; [done|].
  change (comprehension (getitem chunks) (i :: idx))
    with (bind (getitem chunks i) (fun y =>
            bind (comprehension (getitem chunks) idx) (fun ys =>
              ret (y :: ys)))).
  rewrite bind_run. unfold getitem at 1.
  destruct (chunks !! i) as [c|]; [|done].
  change (run (ret c) st) with (Ok c, st). cbv beta iota.
  rewrite bind_run.
  destruct (run (comprehension (getitem chunks) idx) st) as [[ys|x] st1];
    simpl in *; by subst.
Qed.

Lemma comprehension_out_of_range chunks idx i st :
  i ∈ idx -> (length chunks <= i)%nat ->
  run (comprehension (getitem chunks) idx) st
  = (Raise (IndexError "list index out of range"), st).
Proof.
  intros Hi Hout. induction idx as [|j idx IH]; [by apply elem_of_nil in Hi|].
  change (comprehension (getitem chunks) (j :: idx))
    with (bind (getitem chunks j) (fun y =>
            bind (comprehension (getitem chunks) idx) (fun ys =>
              ret (y :: ys)))).
  rewrite bind_run. unfold getitem at 1.
  destruct (chunks !! j) as [c|] eqn:Hj; [|done].
  change (run (ret c) st) with (Ok c, st). cbv beta iota.
  rewrite bind_run, IH; [done|].
  apply elem_of_cons in Hi as [->|Hi]; [|done].
  apply lookup_lt_Some in Hj. lia.
Qed.

(** X12.  [retrieve_top_k] reads only: whatever its arguments and its
    outcome, it leaves the cache files as they are and has called the model
    exactly once. *)
Theorem retrieve_top_k_store chunks embeddings query k st :
  snd (run (retrieve_top_k chunks embeddings query k) st) = bump st.
Proof.
  rewrite retrieve_top_k_run.
  destruct (topk (scores_of embeddings query) k) as [top|x]; [|done].
  apply comprehension_getitem_store.
Qed.

(** X13.  A negative [k] is rejected by torch: [retrieve_top_k] raises
    [RuntimeError] when [k] fits 64 bits, and torch's overflow error
    below that. *)
Theorem retrieve_top_k_negative chunks embeddings query k st :
  k < 0 ->
  run (retrieve_top_k chunks embeddings query k) st
  = (Raise (if - 2 ^ 63 <=? k
            then RuntimeError "selected index k out of range"
            else unpack_overflow), bump st).
Proof. intros Hk. by rewrite retrieve_top_k_run, topk_negative. Qed.

(** X15.  [ask] on a pool with fewer rows than [top_k] raises the error
    of [topk]: [RuntimeError] when [top_k] fits 64 bits, torch's overflow
    error above; the answer generator is not reached and nothing is
    answered.  With the default [top_k = 3] this is every pool of fewer
    than three rows. *)
Theorem ask_small_pool (self : RAGChat) question top_k st :
  Z.of_nat (length (embeddings self)) < top_k ->
  run (ask self question top_k) st
  = (Raise (if top_k <? 2 ^ 63
            then RuntimeError "selected index k out of range"
            else unpack_overflow), bump st)
  /\ (top_k = 3 -> run (ask_default self question) st
                   = (Raise (RuntimeError "selected index k out of range"),
                      bump st)).
Proof.
  intros Hk.
  assert (H : run (ask self question top_k) st
              = (Raise (if top_k <? 2 ^ 63
                        then RuntimeError "selected index k out of range"
                        else unpack_overflow), bump st)).
  { unfold ask. rewrite bind_run, retrieve_top_k_run, topk_out_of_range; [done|].
    by rewrite length_scores_of. }
  split; [done|]. intros ->. exact H.
Qed.

Hypothesis topk_ok : topk_contract L.

(** X14.  A pool with fewer chunks than rows breaks at the lookup: asking
    for as many chunks as there are rows selects a row without a chunk, and
    [retrieve_top_k] raises [IndexError]. *)
Theorem retrieve_top_k_misaligned chunks embeddings query st :
  (length chunks < length embeddings)%nat ->
  run (retrieve_top_k chunks embeddings query (Z.of_nat (length embeddings))) st
  = (Raise (IndexError "list index out of range"), bump st).
Proof.
  intros Hlt. rewrite retrieve_top_k_run, topk_in_range;
    [|rewrite length_scores_of; lia].
  cbn [snd]. rewrite Nat2Z.id.
  pose proof (topk_ok (scores_of embeddings query)
                (length (scores_of embeddings query)) ltac:(lia)) as Htop.
  apply full_topk_perm in Htop. rewrite length_scores_of in Htop.
  apply (comprehension_out_of_range chunks _ (length chunks)); [|lia].
  rewrite Htop. apply elem_of_seq. lia.
Qed.

End RetrievalMore.

Section ChatMore.
Context {L : Libs}.

Lemma RAGChat_init_run folder st :
  run (RAGChat_init folder) st
  = match run (fetch_all "data/cache" folder) st with
    | (Ok pool, st') =>
        (Ok {| pdf_folder := folder; vstore_cache_dir := "data/cache";
               chunks := fst pool; embeddings := snd pool |}, st')
    | (Raise e, st') => (Raise e, st')
    end.
Proof. unfold RAGChat_init. by rewrite bind_run. Qed.

Hypothesis pickle_ok : pickle_contract L.

Lemma fetch_all_ok_inv cache_dir folder st all_chunks all_embeddings st' :
  entries_sat entry_aligned st ->
  run (fetch_all cache_dir folder) st = (Ok (all_chunks, all_embeddings), st') ->
  all_chunks <> [] /\ length all_chunks = length all_embeddings.
Proof.
  intros Hinv Hrun.
  destruct (listdir folder) as [names|x] eqn:Hls;
    [|by rewrite (fetch_all_listdir_fails _ _ _ _ Hls) in Hrun].
  rewrite (fetch_all_run _ _ _ _ Hls) in Hrun.
  pose proof (fetch_all_loop cache_dir pickle_ok folder names [] [] st) as Hloop.
  cbv zeta in Hloop.
  destruct (run (for_each names _ _) st) as [[[ac ae]|x] st1];
    simpl in Hloop; [|done].
  destruct Hloop as (_ & _ & Hsat & blocks & [= -> ->] & Hall).
  case_bool_decide as Hne; [done|]. injection Hrun as <- <- <-.
  split; [done|]. apply length_blocks.
  eapply Forall2_Forall_r; [exact Hall|].
  apply Forall_forall. intros f _ e (b & Hb & He).
  eapply (Hsat entry_aligned); [|done|exact Hb|exact He].
  intros c. unfold entry_aligned, fresh_entry. simpl. by rewrite length_fmap.
Qed.

(** X16.  A chat that was constructed holds the pool of [fetch_all] for
    its folder, and this pool is not empty; from a cache whose entries have
    one row per chunk it has one row per chunk.  When [fetch_all] raises,
    so does the constructor, and no chat exists. *)
Theorem RAGChat_init_pool folder st rc st' :
  entries_sat entry_aligned st ->
  run (RAGChat_init folder) st = (Ok rc, st') ->
  run (fetch_all "data/cache" folder) st = (Ok (chunks rc, embeddings rc), st')
  /\ pdf_folder rc = folder
  /\ chunks rc <> []
  /\ length (chunks rc) = length (embeddings rc).
Proof.
  intros Hinv Hrun. rewrite RAGChat_init_run in Hrun.
  destruct (run (fetch_all "data/cache" folder) st) as [[[cs es]|x] st1] eqn:Hf;
    [|done].
  injection Hrun as <- <-. simpl. split; [done|]. split; [done|].
  by eapply fetch_all_ok_inv.
Qed.

Hypothesis topk_ok : topk_contract L.

(** X17.  End to end: on a chat that was constructed from a cache with one
    row per chunk, [ask] with [top_k] between [0] and the size of the pool
    does not fail in retrieval: it hands the answer generator the question
    and the [top_k] most similar chunks, joined by blank lines, and returns
    what the generator returns. *)
Theorem ask_after_init folder st rc st' question top_k :
  entries_sat entry_aligned st ->
  run (RAGChat_init folder) st = (Ok rc, st') ->
  0 <= top_k <= Z.of_nat (length (chunks rc)) ->
  exists idx top_chunks,
    is_topk (scores_of (embeddings rc) question) (Z.to_nat top_k) idx
    /\ chunks_at (chunks rc) idx top_chunks
    /\ run (ask rc question top_k) st'
       = (query_openrouter question (Py.join Py.blank_line top_chunks),
          bump st').
Proof.
  intros Hinv Hrun Hk. rewrite RAGChat_init_run in Hrun.
  destruct (run (fetch_all "data/cache" folder) st) as [[[cs es]|x] st1] eqn:Hf;
    [|done].
  injection Hrun as <- <-. simpl in *.
  destruct (fetch_all_ok_inv _ _ _ _ _ _ Hinv Hf) as [_ Hlen].
  destruct (retrieve_top_k_in_range topk_ok cs es question top_k st1 Hlen Hk)
    as (idx & top & Hret & _ & Htop & Hat).
  exists idx, top. split; [done|]. split; [done|].
  unfold ask. simpl. by rewrite bind_run, Hret.
Qed.

End ChatMore.

(** ** The further properties at concrete inputs *)

Lemma get_cache_path_drops_extension_witness :
  Py.contains "/" "report.v2" = false
  /\ Py.has_other "." "report.v2" = true
  /\ Py.contains "." "pdf" = false /\ Py.contains "/" "pdf" = false
  /\ Py.contains "." "PDF" = false /\ Py.contains "/" "PDF" = false
  /\ get_cache_path "data/cache" ("report.v2" +:+ "." +:+ "pdf")
     = Py.path_join "data/cache" ("report.v2" +:+ ".pkl")
  /\ get_cache_path "data/cache" ("report.v2" +:+ "." +:+ "pdf")
     = get_cache_path "data/cache" ("report.v2" +:+ "." +:+ "PDF").
Proof.
  do 6 (split; [reflexivity|]).
  apply (get_cache_path_drops_extension "data/cache" "report.v2" "pdf" "PDF");
    reflexivity.
Defined.

Lemma extension_collision_witness :
  pickle_contract Ref.libs
  /\ Py.contains "/" "a" = false
  /\ Py.has_other "." "a" = true
  /\ Py.contains "." "pdf" = false /\ Py.contains "/" "pdf" = false
  /\ Py.contains "." "PDF" = false /\ Py.contains "/" "PDF" = false
  /\ let st1 := snd (run (create (L:=Ref.libs) "data/cache"
                            ("a" +:+ "." +:+ "pdf") ["alpha"]) Ref.empty_store) in
     run (load "data/cache" ("a" +:+ "." +:+ "PDF")) st1
     = (Ok (["alpha"], encode <$> ["alpha"]), st1)
     /\ run (fetch "data/cache" ("a" +:+ "." +:+ "PDF") ["other"]) st1
        = (Ok (["alpha"], encode <$> ["alpha"]), st1).
Proof.
  split; [exact RefFacts.pickle_contract_ref|].
  do 6 (split; [reflexivity|]).
  apply (extension_collision (L:=Ref.libs) "data/cache"
           RefFacts.pickle_contract_ref "a" "pdf" "PDF" ["alpha"] ["other"]
           Ref.empty_store); reflexivity.
Defined.

Lemma create_overwrites_witness :
  pickle_contract Ref.libs
  /\ let st2 : @store Ref.libs :=
       {| files := <[get_cache_path "data/cache" "a.pdf"
                     := pickle_dumps (fresh_entry ["new"])]> (files Ref.empty_store);
          encode_calls := S (S (encode_calls Ref.empty_store)) |} in
     run (create "data/cache" "a.pdf" ["old"] ;;;
          create "data/cache" "a.pdf" ["new"]) Ref.empty_store
     = (Ok tt, st2)
     /\ run (load "data/cache" "a.pdf") st2 = (Ok (["new"], encode <$> ["new"]), st2).
Proof.
  split; [exact RefFacts.pickle_contract_ref|].
  exact (create_overwrites (L:=Ref.libs) "data/cache"
           RefFacts.pickle_contract_ref "a.pdf" ["old"] ["new"] Ref.empty_store).
Defined.

Lemma create_keeps_other_entries_witness :
  get_cache_path "data/cache" "a.pdf" <> get_cache_path "data/cache" "b.pdf"
  /\ fst (run (load "data/cache" "a.pdf")
            (created "data/cache" "b.pdf" ["beta"] Ref.stale_store))
     = fst (run (load "data/cache" "a.pdf") Ref.stale_store).
Proof.
  assert (H : get_cache_path "data/cache" "a.pdf"
              <> get_cache_path "data/cache" "b.pdf") by (vm_compute; discriminate).
  split; [exact H|].
  exact (create_keeps_other_entries (L:=Ref.libs) "data/cache" "b.pdf" ["beta"]
           "a.pdf" Ref.stale_store H).
Defined.

Lemma fetch_keeps_corrupt_entry_witness :
  files Ref.corrupt_store !! get_cache_path "data/cache" "a.pdf" = Some None
  /\ pickle_loads (Libs:=Ref.raw_libs) None = None
  /\ run (load "data/cache" "a.pdf") Ref.corrupt_store
     = (Raise (PickleError (EOFError "Ran out of input")), Ref.corrupt_store)
  /\ run (fetch "data/cache" "a.pdf" ["alpha"]) Ref.corrupt_store
     = (Raise (PickleError (EOFError "Ran out of input")), Ref.corrupt_store).
Proof.
  assert (H : files Ref.corrupt_store !! get_cache_path "data/cache" "a.pdf"
              = Some None) by (vm_compute; reflexivity).
  split; [exact H|]. split; [reflexivity|].
  exact (fetch_keeps_corrupt_entry (L:=Ref.raw_libs) "data/cache" "a.pdf"
           ["alpha"] Ref.corrupt_store None H eq_refl).
Defined.

Lemma fetch_all_again_witness :
  let pool : entry Ref.row :=
    (["old alpha"; "beta fact one"],
     Ref.embed <$> ["old alpha"; "beta fact one"]) in
  let st' := snd (run (fetch_all (L:=Ref.libs) "data/cache" "data/pdf")
                    Ref.stale_store) in
  pickle_contract Ref.libs
  /\ run (fetch_all "data/cache" "data/pdf") Ref.stale_store = (Ok pool, st')
  /\ run (fetch_all "data/cache" "data/pdf") st' = (Ok pool, st').
Proof.
  cbv zeta.
  assert (Hfst :
    fst (run (fetch_all (L:=Ref.libs) "data/cache" "data/pdf") Ref.stale_store)
    = Ok (["old alpha"; "beta fact one"],
           Ref.embed <$> ["old alpha"; "beta fact one"]))
    by (vm_compute; reflexivity).
  assert (Hrun :
    run (fetch_all (L:=Ref.libs) "data/cache" "data/pdf") Ref.stale_store
    = (Ok (["old alpha"; "beta fact one"],
           Ref.embed <$> ["old alpha"; "beta fact one"]),
       snd (run (fetch_all (L:=Ref.libs) "data/cache" "data/pdf") Ref.stale_store))).
  { rewrite <- Hfst. apply surjective_pairing. }
  split; [exact RefFacts.pickle_contract_ref|]. split; [exact Hrun|].
  exact (fetch_all_again (L:=Ref.libs) "data/cache"
           RefFacts.pickle_contract_ref "data/pdf" Ref.stale_store _ _ Hrun).
Defined.

Lemma reset_clears_before_listing_witness :
  listdir (Libs:=Ref.libs) "data/nowhere"
  = Raise (FileNotFoundError "data/nowhere")
  /\ run (reset "data/cache" "data/nowhere") Ref.stale_store
     = (Raise (FileNotFoundError "data/nowhere"), cleared Ref.stale_store).
Proof.
  split; [reflexivity|].
  exact (reset_clears_before_listing (L:=Ref.libs) "data/cache" "data/nowhere"
           (FileNotFoundError "data/nowhere") Ref.stale_store eq_refl).
Defined.

Lemma reset_rebuilds_witness :
  let names := ["a.pdf"; "notes.txt"; "b.PDF"] in
  listdir (Libs:=Ref.libs) "data/pdf" = Ok names
  /\ exists st' : @store Ref.libs,
       run (reset "data/cache" "data/pdf") Ref.stale_store = (Ok tt, st')
       /\ encode_calls st'
          = (encode_calls Ref.stale_store + length (eligible names))%nat
       /\ (forall f, f ∈ eligible names ->
             is_Some (files st' !! get_cache_path "data/cache" f))
       /\ (forall p (b : @blob Ref.libs), files st' !! p = Some b ->
             exists f, f ∈ eligible names /\ p = get_cache_path "data/cache" f
               /\ b = pickle_dumps (Libs:=Ref.libs)
                        (fresh_entry (chunks_of (L:=Ref.libs) "data/pdf" f))).
Proof.
  cbv zeta. split; [reflexivity|].
  exact (reset_rebuilds (L:=Ref.libs) "data/cache" "data/pdf"
           ["a.pdf"; "notes.txt"; "b.PDF"] Ref.stale_store eq_refl).
Defined.

Lemma reset_then_fetch_all_witness :
  let names := ["a.pdf"; "notes.txt"; "b.PDF"] in
  let all_chunks :=
    concat (chunks_of (L:=Ref.libs) "data/pdf" <$> eligible names) in
  pickle_contract Ref.libs
  /\ listdir (Libs:=Ref.libs) "data/pdf" = Ok names
  /\ NoDup (get_cache_path "data/cache" <$> eligible names)
  /\ exists st' : @store Ref.libs,
       run (reset "data/cache" "data/pdf") Ref.stale_store = (Ok tt, st')
       /\ encode_calls st'
          = (encode_calls Ref.stale_store + length (eligible names))%nat
       /\ run (fetch_all "data/cache" "data/pdf") st'
          = (if bool_decide (all_chunks = []) then Raise empty_corpus
             else Ok (all_chunks, encode <$> all_chunks), st').
Proof.
  cbv zeta.
  assert (Hnd : NoDup (get_cache_path "data/cache"
                         <$> eligible ["a.pdf"; "notes.txt"; "b.PDF"])).
  { apply (bool_decide_unpack _). vm_compute. exact I. }
  split; [exact RefFacts.pickle_contract_ref|].
  split; [reflexivity|]. split; [exact Hnd|].
  exact (reset_then_fetch_all (L:=Ref.libs) "data/cache"
           RefFacts.pickle_contract_ref "data/pdf"
           ["a.pdf"; "notes.txt"; "b.PDF"] Ref.stale_store eq_refl Hnd).
Defined.

Lemma retrieve_top_k_negative_witness :
  -1 < 0
  /\ run (retrieve_top_k (L:=Ref.libs) Ref.pool_chunks Ref.pool_rows "beta" (-1))
         Ref.empty_store
     = (Raise (RuntimeError "selected index k out of range"), bump Ref.empty_store).
Proof.
  split; [reflexivity|].
  apply (retrieve_top_k_negative (L:=Ref.libs) Ref.pool_chunks Ref.pool_rows
           "beta" (-1) Ref.empty_store). reflexivity.
Defined.

Lemma retrieve_top_k_misaligned_witness :
  topk_contract Ref.libs
  /\ (length ["alpha fact one"; "alpha fact two"] < length Ref.pool_rows)%nat
  /\ run (retrieve_top_k (L:=Ref.libs) ["alpha fact one"; "alpha fact two"]
            Ref.pool_rows "beta" (Z.of_nat (length Ref.pool_rows)))
         Ref.empty_store
     = (Raise (IndexError "list index out of range"), bump Ref.empty_store).
Proof.
  split; [exact RefFacts.topk_contract_ref|].
  split; [simpl; lia|].
  apply (retrieve_top_k_misaligned (L:=Ref.libs) RefFacts.topk_contract_ref
           ["alpha fact one"; "alpha fact two"] Ref.pool_rows "beta"
           Ref.empty_store). simpl. lia.
Defined.

Lemma ask_small_pool_witness :
  Z.of_nat (length (embeddings Ref.small_chat)) < 3
  /\ run (ask Ref.small_chat "q" 3) Ref.empty_store
     = (Raise (RuntimeError "selected index k out of range"), bump Ref.empty_store)
  /\ (3 = 3 -> run (ask_default Ref.small_chat "q") Ref.empty_store
               = (Raise (RuntimeError "selected index k out of range"),
                  bump Ref.empty_store)).
Proof.
  split; [reflexivity|].
  apply (ask_small_pool (L:=Ref.libs) Ref.small_chat "q" 3 Ref.empty_store).
  reflexivity.
Defined.

Lemma RAGChat_init_pool_witness :
  let rc : @RAGChat Ref.libs :=
    @Build_RAGChat Ref.libs "data/pdf" "data/cache"
      ["old alpha"; "beta fact one"]
      (Ref.embed <$> ["old alpha"; "beta fact one"]) in
  let st' := snd (run (RAGChat_init (L:=Ref.libs) "data/pdf") Ref.stale_store) in
  pickle_contract Ref.libs
  /\ entries_sat entry_aligned Ref.stale_store
  /\ run (RAGChat_init "data/pdf") Ref.stale_store = (Ok rc, st')
  /\ run (fetch_all "data/cache" "data/pdf") Ref.stale_store
     = (Ok (chunks rc, embeddings rc), st')
  /\ pdf_folder rc = "data/pdf"
  /\ chunks rc <> []
  /\ length (chunks rc) = length (embeddings rc).
Proof.
  cbv zeta.
  assert (Hfst :
    fst (run (RAGChat_init (L:=Ref.libs) "data/pdf") Ref.stale_store)
    = Ok (@Build_RAGChat Ref.libs "data/pdf" "data/cache"
             ["old alpha"; "beta fact one"]
             (Ref.embed <$> ["old alpha"; "beta fact one"])))
    by (vm_compute; reflexivity).
  assert (Hrun :
    run (RAGChat_init (L:=Ref.libs) "data/pdf") Ref.stale_store
    = (Ok (@Build_RAGChat Ref.libs "data/pdf" "data/cache"
             ["old alpha"; "beta fact one"]
             (Ref.embed <$> ["old alpha"; "beta fact one"])),
       snd (run (RAGChat_init (L:=Ref.libs) "data/pdf") Ref.stale_store))).
  { rewrite <- Hfst. apply surjective_pairing. }
  split; [exact RefFacts.pickle_contract_ref|].
  split; [exact stale_store_aligned|]. split; [exact Hrun|].
  exact (RAGChat_init_pool (L:=Ref.libs) RefFacts.pickle_contract_ref
           "data/pdf" Ref.stale_store _ _ stale_store_aligned Hrun).
Defined.

Lemma ask_after_init_witness :
  let rc : @RAGChat Ref.libs :=
    @Build_RAGChat Ref.libs "data/pdf" "data/cache"
      ["old alpha"; "beta fact one"]
      (Ref.embed <$> ["old alpha"; "beta fact one"]) in
  let st' := snd (run (RAGChat_init (L:=Ref.libs) "data/pdf") Ref.stale_store) in
  pickle_contract Ref.libs
  /\ topk_contract Ref.libs
  /\ entries_sat entry_aligned Ref.stale_store
  /\ run (RAGChat_init "data/pdf") Ref.stale_store = (Ok rc, st')
  /\ 0 <= 1 <= Z.of_nat (length (chunks rc))
  /\ exists idx top_chunks,
       is_topk (scores_of (embeddings rc) "beta?") (Z.to_nat 1) idx
       /\ chunks_at (chunks rc) idx top_chunks
       /\ run (ask rc "beta?" 1) st'
          = (query_openrouter (Libs:=Ref.libs) "beta?"
               (Py.join Py.blank_line top_chunks),
             bump st').
Proof.
  cbv zeta.
  assert (Hfst :
    fst (run (RAGChat_init (L:=Ref.libs) "data/pdf") Ref.stale_store)
    = Ok (@Build_RAGChat Ref.libs "data/pdf" "data/cache"
             ["old alpha"; "beta fact one"]
             (Ref.embed <$> ["old alpha"; "beta fact one"])))
    by (vm_compute; reflexivity).
  assert (Hrun :
    run (RAGChat_init (L:=Ref.libs) "data/pdf") Ref.stale_store
    = (Ok (@Build_RAGChat Ref.libs "data/pdf" "data/cache"
             ["old alpha"; "beta fact one"]
             (Ref.embed <$> ["old alpha"; "beta fact one"])),
       snd (run (RAGChat_init (L:=Ref.libs) "data/pdf") Ref.stale_store))).
  { rewrite <- Hfst. apply surjective_pairing. }
  split; [exact RefFacts.pickle_contract_ref|].
  split; [exact RefFacts.topk_contract_ref|].
  split; [exact stale_store_aligned|]. split; [exact Hrun|].
  split; [simpl; lia|].
  apply (ask_after_init (L:=Ref.libs) RefFacts.pickle_contract_ref
           RefFacts.topk_contract_ref "data/pdf" Ref.stale_store _ _ "beta?" 1
           stale_store_aligned Hrun). simpl. lia.
Defined.
